(** * home-away: the server actions and the country label, verified

    A shallow embedding of [utils/actions.ts], [prisma/schema.prisma] and
    [components/card/CountryFlagAndName.tsx].

    The server actions are asynchronous functions that talk to three
    outside parties: the identity provider (Clerk), the relational store
    (Prisma over PostgreSQL) and the object storage.  They are embedded as
    computations in a state-and-exception monad over a [World] that holds
    the state of those parties; [await] is sequencing.  A JavaScript
    [throw] and the Next.js [redirect] (which is itself a thrown value) are
    the two abrupt completions.

    A JavaScript string is embedded as a [string]; one character stands for
    one UTF-16 code unit, so [String.length] is [.length]. *)

From Stdlib Require Import String Ascii List Arith Lia.
From stdpp Require Import base option list gmap strings.

Local Open Scope string_scope.

(** ** Abrupt completions *)

(** What a JavaScript [throw] can carry in this program: an [Error] with a
    message, the [TypeError] of a property read on [undefined], and the
    value that [redirect] of [next/navigation] throws. *)
Inductive thrown : Type :=
  | JsError (msg : string)
  | JsTypeError (property : string)
  | NextRedirect (url : string).

Inductive outcome (A : Type) : Type :=
  | Ok (a : A)
  | Thrown (t : thrown).
Arguments Ok {A} a.
Arguments Thrown {A} t.

(** ** Values that cross the boundary of the actions *)

(** [{ message: string }] *)
Record Message : Type := mkMessage { message : string }.

(** The browser's [File]. *)
Record File : Type := mkFile {
  file_name : string;
  file_size : N;
  file_type : string
}.

(** [FormDataEntryValue = string | File] *)
Inductive FormDataEntryValue : Type :=
  | EntryString (s : string)
  | EntryFile (f : File).

(** A [FormData] is an ordered list of named entries. *)
Definition FormData : Type := list (string * FormDataEntryValue).

(** [formData.get(name)]: the first entry of that name, or [null]. *)
Fixpoint formData_get (name : string) (fd : FormData) : option FormDataEntryValue :=
  match fd with
  | [] => None
  | (k, v) :: rest => if String.eqb k name then Some v else formData_get name rest
  end.

(** [Object.fromEntries(formData)]: an object with one property per name,
    a later entry replacing an earlier one of the same name. *)
Definition fromEntries (fd : FormData) : gmap string FormDataEntryValue :=
  fold_left (fun obj kv => <[fst kv := snd kv]> obj) fd ∅.

(** ** The identity provider *)

(** The [User] of [@clerk/nextjs/server], with the members the actions read.
    [privateMetadata.hasProfile] is read for its truthiness only. *)
Record User : Type := mkUser {
  user_id : string;
  emailAddresses : list string;
  imageUrl : option string;
  hasProfile : bool
}.

(** What the provider keeps for a subject id. *)
Record Identity : Type := mkIdentity {
  identity_emails : list string;
  identity_image : option string;
  identity_hasProfile : bool
}.

(** ** The persisted schema ([prisma/schema.prisma]) *)

Module Profile.
Record t : Type := mk {
  id : string;
  clerkId : string;
  firstName : string;
  lastName : string;
  username : string;
  email : string;
  profileImage : string;
  createdAt : nat;
  updatedAt : nat
}.
End Profile.

Module Property.
Record t : Type := mk {
  id : string;
  name : string;
  tagline : string;
  category : string;
  image : string;
  country : string;
  description : string;
  price : Z;
  guests : Z;
  bedrooms : Z;
  beds : Z;
  baths : Z;
  amenities : string;
  profileId : string;
  createdAt : nat;
  updatedAt : nat
}.
End Property.

Module Favorite.
Record t : Type := mk {
  id : string;
  profileId : string;
  propertyId : string;
  createdAt : nat;
  updatedAt : nat
}.
End Favorite.

(** The three tables, rows in insertion order.  The schema declares [id] as
    the key of each table and [clerkId] as unique in [Profile]; it declares
    nothing on the pair [(profileId, propertyId)] of [Favorite]. *)
Record Db : Type := mkDb {
  profiles : list Profile.t;
  properties : list Property.t;
  favorites : list Favorite.t
}.

(** ** The world the actions run in *)

Record World : Type := mkWorld {
  session : option string;            (* subject of the request, if signed in *)
  identities : gmap string Identity;  (* the identity provider's store *)
  db : Db;                            (* the relational store *)
  clock : nat;                        (* the store's [now()] *)
  uploads : list File;                (* calls made to the object storage *)
  revalidated : list string           (* paths given to [revalidatePath] *)
}.

(** ** The monad of the actions *)

Definition Action (A : Type) : Type := World -> outcome A * World.

Definition ret {A} (a : A) : Action A := fun w => (Ok a, w).

Definition bind {A B} (m : Action A) (k : A -> Action B) : Action B :=
  fun w =>
    match m w with
    | (Ok a, w') => k a w'
    | (Thrown t, w') => (Thrown t, w')
    end.

Definition throw {A} (t : thrown) : Action A := fun w => (Thrown t, w).

(** [redirect(url)] of [next/navigation] never returns: it throws. *)
Definition redirect {A} (url : string) : Action A := throw (NextRedirect url).

(** [try { body } catch (error) { handler(error) }]: the handler receives
    whatever the body threw, a redirect included; what the body did to the
    world before throwing stays done. *)
Definition try_catch {A} (body : Action A) (handler : thrown -> Action A) : Action A :=
  fun w =>
    match body w with
    | (Ok a, w') => (Ok a, w')
    | (Thrown t, w') => handler t w'
    end.

Declare Scope action_scope.
Delimit Scope action_scope with action.
Notation "'let*' x := m 'in' k" := (bind m (fun x => k))
  (at level 10, x name, m at level 100, k at level 200) : action_scope.
Notation "m ;;; k" := (bind m (fun _ => k))
  (at level 100, k at level 200, right associativity) : action_scope.
Local Open Scope action_scope.

(** ** Modules of the repository that the actions import *)

(** The fields [profileSchema] yields: the columns of [Profile] that
    [createProfileAction] does not supply itself. *)
Record ProfileFields : Type := mkProfileFields {
  pf_firstName : string;
  pf_lastName : string;
  pf_username : string
}.

(** The fields [propertySchema] yields: the columns of [Property] that
    [createPropertyAction] does not supply itself. *)
Record PropertyFields : Type := mkPropertyFields {
  rf_name : string;
  rf_tagline : string;
  rf_category : string;
  rf_country : string;
  rf_description : string;
  rf_price : Z;
  rf_guests : Z;
  rf_bedrooms : Z;
  rf_beds : Z;
  rf_baths : Z;
  rf_amenities : string
}.

(** An entry of the country table of [utils/countries]. *)
Record Country : Type := mkCountry {
  country_code : string;
  country_name : string
}.

(** [utils/schemas], [utils/helpers], [utils/supabase] and
    [utils/countries] are imported by the sources and are taken as
    parameters: the two field schemas as parsers that give the first
    violated constraint's message or the validated fields, the image
    schema by its configuration, the upload by its result (a thrown value
    or the public path) for a file and the calls made before it. *)
Class Collaborators : Type := {
  renderError : thrown -> Message;
  profileSchema : gmap string FormDataEntryValue -> string + ProfileFields;
  propertySchema : gmap string FormDataEntryValue -> string + PropertyFields;
  maxUploadSize : N;
  acceptedFileType : string -> bool;
  imageRequiredMessage : string;
  imageSizeMessage : string;
  imageTypeMessage : string;
  uploadResult : File -> list File -> thrown + string;
  countries : list Country
}.

(** Modelled from the spec: [imageSchema] of [utils/schemas], which is not
    among the sources.  It constrains the [image] member by presence of a
    file, by a size ceiling and by an allow-list of MIME types, and the
    first violated constraint gives the message. *)
Definition imageSchema `{Collaborators} (image : option FormDataEntryValue)
  : string + File :=
  match image with
  | Some (EntryFile f) =>
      if (maxUploadSize <? file_size f)%N then inl imageSizeMessage
      else if negb (acceptedFileType (file_type f)) then inl imageTypeMessage
      else inr f
  | _ => inl imageRequiredMessage
  end.

(** Modelled from the spec: [validateWithZodSchema] of [utils/schemas],
    which is not among the sources.  It gives the validated object, or
    fails with an error that carries the first violated constraint's
    message. *)
Definition validateWithZodSchema {I T} (schema : I -> string + T) (data : I)
  : Action T :=
  match schema data with
  | inl msg => throw (JsError msg)
  | inr v => ret v
  end.

(** Modelled from the spec: [uploadImage] of [utils/supabase], which is not
    among the sources.  One call to the object storage, which gives the
    public path of the stored image or fails. *)
Definition uploadImage `{Collaborators} (f : File) : Action string :=
  fun w =>
    let w' := mkWorld (session w) (identities w) (db w) (clock w)
                      (uploads w ++ [f]) (revalidated w) in
    match uploadResult f (uploads w) with
    | inl t => (Thrown t, w')
    | inr path => (Ok path, w')
    end.

(** Modelled from the spec: [findCountryByCode] of [utils/countries], which
    is not among the sources.  It looks a country up by its code; an
    unknown code gives [undefined]. *)
Definition findCountryByCode `{Collaborators} (code : string) : option Country :=
  List.find (fun c => String.eqb (country_code c) code) countries.

(** ** Framework and identity provider *)

(** [revalidatePath(path)] of [next/cache]. *)
Definition revalidatePath (path : string) : Action unit :=
  fun w =>
    (Ok tt, mkWorld (session w) (identities w) (db w) (clock w)
                    (uploads w) (revalidated w ++ [path])).

(** [currentUser()] of Clerk: the signed-in subject as the provider has it,
    or [null]. *)
Definition currentUser : Action (option User) :=
  fun w =>
    (Ok (match session w with
         | None => None
         | Some sid =>
             match identities w !! sid with
             | None => None
             | Some i => Some (mkUser sid (identity_emails i) (identity_image i)
                                      (identity_hasProfile i))
             end
         end), w).

(** [clerkClient.users.updateUserMetadata(id, { privateMetadata:
    { hasProfile: true } })]: merges the flag into the subject's metadata;
    the provider rejects an unknown subject. *)
Definition updateUserMetadata_hasProfile (uid : string) : Action unit :=
  fun w =>
    match identities w !! uid with
    | None => (Thrown (JsError "Not Found"), w)
    | Some i =>
        (Ok tt, mkWorld (session w)
                        (<[uid := mkIdentity (identity_emails i) (identity_image i) true]>
                           (identities w))
                        (db w) (clock w) (uploads w) (revalidated w))
    end.

(** ** The relational store *)

(** [@default(uuid())]: the store gives a new row an id that is not empty
    and differs from every id of the table.  The generator here takes one
    character more than the longest id in use. *)
Definition longest (l : list string) : string :=
  fold_right (fun s acc => if Nat.ltb (String.length acc) (String.length s) then s else acc) "" l.

Definition uuid (taken : list string) : string := String "u" (longest taken).

(** A write commits the new tables; [now()] moves on. *)
Definition commit (d : Db) (w : World) : World :=
  mkWorld (session w) (identities w) d (S (clock w)) (uploads w) (revalidated w).

(** [db.profile.create({ data })]; [clerkId] is [@unique]. *)
Definition db_profile_create (clerkId email profileImage : string) (v : ProfileFields)
  : Action Profile.t :=
  fun w =>
    let d := db w in
    if existsb (fun p => String.eqb (Profile.clerkId p) clerkId) (profiles d)
    then (Thrown (JsError "Unique constraint failed on the fields: (`clerkId`)"), w)
    else
      let row := Profile.mk (uuid (map Profile.id (profiles d))) clerkId
                            (pf_firstName v) (pf_lastName v) (pf_username v)
                            email profileImage (clock w) (clock w) in
      (Ok row, commit (mkDb (profiles d ++ [row]) (properties d) (favorites d)) w).

(** [db.profile.findUnique({ where: { clerkId } })] *)
Definition db_profile_findUnique (clerkId : string) : Action (option Profile.t) :=
  fun w =>
    (Ok (List.find (fun p => String.eqb (Profile.clerkId p) clerkId) (profiles (db w))), w).

(** The two [data] arguments that the actions give to [db.profile.update]. *)
Definition data_fields (v : ProfileFields) (p : Profile.t) : Profile.t :=
  Profile.mk (Profile.id p) (Profile.clerkId p)
             (pf_firstName v) (pf_lastName v) (pf_username v)
             (Profile.email p) (Profile.profileImage p)
             (Profile.createdAt p) (Profile.updatedAt p).

Definition data_profileImage (path : string) (p : Profile.t) : Profile.t :=
  Profile.mk (Profile.id p) (Profile.clerkId p)
             (Profile.firstName p) (Profile.lastName p) (Profile.username p)
             (Profile.email p) path
             (Profile.createdAt p) (Profile.updatedAt p).

Definition touch (now : nat) (p : Profile.t) : Profile.t :=
  Profile.mk (Profile.id p) (Profile.clerkId p)
             (Profile.firstName p) (Profile.lastName p) (Profile.username p)
             (Profile.email p) (Profile.profileImage p)
             (Profile.createdAt p) now.

(** [db.profile.update({ where: { clerkId }, data })]: fails when no row
    has that [clerkId]; [@updatedAt] is set by the store. *)
Definition db_profile_update (clerkId : string) (data : Profile.t -> Profile.t)
  : Action Profile.t :=
  fun w =>
    let d := db w in
    let hit p := String.eqb (Profile.clerkId p) clerkId in
    match List.find hit (profiles d) with
    | None => (Thrown (JsError "Record to update not found."), w)
    | Some p =>
        let change q := if hit q then touch (clock w) (data q) else q in
        (Ok (change p), commit (mkDb (map change (profiles d)) (properties d) (favorites d)) w)
    end.

(** A column declared [Int] holds a 32-bit signed integer. *)
Definition int4 (z : Z) : bool :=
  ((-2147483648 <=? z) && (z <=? 2147483647))%Z.

(** The five [Int] columns of [Property]. *)
Definition ints_fit (v : PropertyFields) : bool :=
  int4 (rf_price v) && int4 (rf_guests v) && int4 (rf_bedrooms v) &&
  int4 (rf_beds v) && int4 (rf_baths v).

(** [db.property.create({ data })]: a number that an [Int] column cannot
    hold is refused; [profileId] references [Profile.clerkId]. *)
Definition db_property_create (v : PropertyFields) (image profileId : string)
  : Action Property.t :=
  fun w =>
    let d := db w in
    if negb (ints_fit v)
    then (Thrown (JsError "Unable to fit integer value into an INT4 (32-bit signed integer)."), w)
    else if negb (existsb (fun p => String.eqb (Profile.clerkId p) profileId) (profiles d))
    then (Thrown (JsError "Foreign key constraint failed on the field: `Property_profileId_fkey`"), w)
    else
      let row := Property.mk (uuid (map Property.id (properties d)))
                             (rf_name v) (rf_tagline v) (rf_category v) image
                             (rf_country v) (rf_description v) (rf_price v)
                             (rf_guests v) (rf_bedrooms v) (rf_beds v) (rf_baths v)
                             (rf_amenities v) profileId (clock w) (clock w) in
      (Ok row, commit (mkDb (profiles d) (properties d ++ [row]) (favorites d)) w).

(** The listing projection: [select: { id, name, tagline, country, image,
    price }]. *)
Record PropertyCard : Type := mkPropertyCard {
  card_id : string;
  card_name : string;
  card_tagline : string;
  card_country : string;
  card_image : string;
  card_price : Z
}.

Definition select_card (p : Property.t) : PropertyCard :=
  mkPropertyCard (Property.id p) (Property.name p) (Property.tagline p)
                 (Property.country p) (Property.image p) (Property.price p).

(** *** [{ contains: search, mode: "insensitive" }]

    The store is PostgreSQL, and the filter reaches it as
    [column ILIKE '%' || search || '%'] with the search string as it was
    given: in it [%] stands for any run of characters, [_] for any one
    character, and a backslash makes the next character stand for itself.
    [ILIKE] lower-cases pattern and column with the [lower()] of the
    database's locale and then matches as [LIKE] does. *)

(** The locale of the database: how [lower()] maps a character. *)
Class Locale : Type := { locale_lower : ascii -> ascii }.

(** Lower-casing in the C locale: the letters A to Z only. *)
Definition to_lower (c : ascii) : ascii :=
  let n := nat_of_ascii c in
  if Nat.leb 65 n && Nat.leb n 90 then ascii_of_nat (n + 32) else c.

(** The three characters a pattern reads specially; they are no letters,
    and [lower()] leaves them as they are in every locale. *)
Definition is_wildcard (c : ascii) : bool :=
  Ascii.eqb c "%" || Ascii.eqb c "_" || Ascii.eqb c "\".

Definition lower_char `{Locale} (c : ascii) : ascii :=
  if is_wildcard c then c else locale_lower c.

Fixpoint lower `{Locale} (s : string) : string :=
  match s with
  | EmptyString => EmptyString
  | String c rest => String (lower_char c) (lower rest)
  end.

(** What a place of a pattern stands for. *)
Inductive like_token : Type :=
  | AnyString
  | AnyChar
  | Exactly (c : ascii).

(** Reading a pattern; one that ends in a lone backslash is refused. *)
Fixpoint like_pattern (p : string) : option (list like_token) :=
  match p with
  | EmptyString => Some []
  | String c rest =>
      if Ascii.eqb c "\" then
        match rest with
        | EmptyString => None
        | String d rest' => option_map (cons (Exactly d)) (like_pattern rest')
        end
      else
        option_map
          (cons (if Ascii.eqb c "%" then AnyString
                 else if Ascii.eqb c "_" then AnyChar else Exactly c))
          (like_pattern rest)
  end.

(** [f] holds of the string or of what is left of it after some
    characters. *)
Fixpoint some_suffix (f : string -> bool) (s : string) : bool :=
  f s ||
  match s with
  | EmptyString => false
  | String _ rest => some_suffix f rest
  end.

(** [LIKE]: the pattern must account for the whole string. *)
Fixpoint like_tokens (p : list like_token) (s : string) : bool :=
  match p with
  | [] => match s with EmptyString => true | String _ _ => false end
  | Exactly c :: p' =>
      match s with
      | EmptyString => false
      | String d rest => Ascii.eqb c d && like_tokens p' rest
      end
  | AnyChar :: p' =>
      match s with
      | EmptyString => false
      | String _ rest => like_tokens p' rest
      end
  | AnyString :: p' => some_suffix (like_tokens p') s
  end.

(** The pattern of [contains]. *)
Definition contains_pattern (search : string) : string :=
  "%" +:+ search +:+ "%".

(** [where: { category }]: an [undefined] filter is no filter. *)
Definition category_is (category : option string) (p : Property.t) : bool :=
  match category with
  | None => true
  | Some c => String.eqb (Property.category p) c
  end.

(** [db.property.findMany({ where: { category, OR: [ name contains,
    tagline contains ] }, select })] *)
Definition db_property_findMany `{Locale} (category : option string) (search : string)
  : Action (list PropertyCard) :=
  fun w =>
    match like_pattern (lower (contains_pattern search)) with
    | None => (Thrown (JsError "LIKE pattern must not end with escape character"), w)
    | Some pattern =>
        (Ok (map select_card
               (List.filter
                  (fun p => category_is category p &&
                            (like_tokens pattern (lower (Property.name p)) ||
                             like_tokens pattern (lower (Property.tagline p))))
                  (properties (db w)))), w)
    end.

Definition favorite_of (profileId propertyId : string) (f : Favorite.t) : bool :=
  String.eqb (Favorite.propertyId f) propertyId &&
  String.eqb (Favorite.profileId f) profileId.

(** [db.favorite.findFirst({ where: { propertyId, profileId },
    select: { id: true } })]: the selected [id] of the first such row. *)
Definition db_favorite_findFirst (propertyId profileId : string)
  : Action (option string) :=
  fun w =>
    (Ok (option_map Favorite.id
           (List.find (favorite_of profileId propertyId) (favorites (db w)))), w).

(** [db.favorite.delete({ where: { id } })]: fails when no row has that id. *)
Definition db_favorite_delete (id : string) : Action unit :=
  fun w =>
    let d := db w in
    if existsb (fun f => String.eqb (Favorite.id f) id) (favorites d)
    then (Ok tt, commit (mkDb (profiles d) (properties d)
                              (List.filter (fun f => negb (String.eqb (Favorite.id f) id))
                                           (favorites d))) w)
    else (Thrown (JsError "Record to delete does not exist."), w).

(** [db.favorite.create({ data: { propertyId, profileId } })]; [profileId]
    references [Profile.clerkId] and [propertyId] references
    [Property.id]. *)
Definition db_favorite_create (propertyId profileId : string) : Action Favorite.t :=
  fun w =>
    let d := db w in
    if negb (existsb (fun p => String.eqb (Profile.clerkId p) profileId) (profiles d))
    then (Thrown (JsError "Foreign key constraint failed on the field: `Favorite_profileId_fkey`"), w)
    else if negb (existsb (fun p => String.eqb (Property.id p) propertyId) (properties d))
    then (Thrown (JsError "Foreign key constraint failed on the field: `Favorite_propertyId_fkey`"), w)
    else
      let row := Favorite.mk (uuid (map Favorite.id (favorites d)))
                             profileId propertyId (clock w) (clock w) in
      (Ok row, commit (mkDb (profiles d) (properties d) (favorites d ++ [row])) w).

(** [db.favorite.findMany({ where: { profileId }, select: { property:
    { select } } })] followed by [favorites.map(favorite =>
    favorite.property)]. *)
Definition db_favorite_findMany_property (profileId : string)
  : Action (list PropertyCard) :=
  fun w =>
    let d := db w in
    (Ok (omap (fun f =>
                 option_map select_card
                   (List.find (fun p => String.eqb (Property.id p) (Favorite.propertyId f))
                              (properties d)))
              (List.filter (fun f => String.eqb (Favorite.profileId f) profileId)
                           (favorites d))), w).

(** ** [utils/actions.ts] *)

(** The unused [prevState: any] of the form actions is left out. *)

Definition getAuthUser : Action User :=
  let* user := currentUser in
  match user with
  | None => throw (JsError "You must be logged in to access this route")
  | Some user =>
      if negb (hasProfile user) then redirect "/profile/create" else ret user
  end.

(** [user.emailAddresses[0].emailAddress] *)
Definition first_emailAddress (user : User) : Action string :=
  match emailAddresses user with
  | [] => throw (JsTypeError "emailAddress")
  | e :: _ => ret e
  end.

(** A [try] block that ends without [return] yields [None] here and the
    function goes on after the [catch]; a [return] in the block or in the
    handler yields [Some]. *)
Definition createProfileAction `{Collaborators} (formData : FormData) : Action Message :=
  let* returned :=
    try_catch
      (let* user := currentUser in
       match user with
       | None => throw (JsError "Please login to create a profile")
       | Some user =>
           let rawData := fromEntries formData in
           let* validatedFields := validateWithZodSchema profileSchema rawData in
           let* email := first_emailAddress user in
           let* _ := db_profile_create (user_id user) email
                       (default "" (imageUrl user)) validatedFields in
           updateUserMetadata_hasProfile (user_id user) ;;;
           ret None
       end)
      (fun error => ret (Some (renderError error))) in
  match returned with
  | Some result => ret result
  | None => redirect "/"
  end.

(** [null], [undefined] or a value. *)
Inductive nullish (A : Type) : Type :=
  | JsNull
  | JsUndefined
  | JsValue (a : A).
Arguments JsNull {A}.
Arguments JsUndefined {A}.
Arguments JsValue {A} a.

Definition fetchProfileImage : Action (nullish string) :=
  let* user := currentUser in
  match user with
  | None => ret JsNull
  | Some user =>
      let* profile := db_profile_findUnique (user_id user) in
      match profile with
      | None => ret JsUndefined
      | Some profile => ret (JsValue (Profile.profileImage profile))
      end
  end.

Definition fetchProfile : Action Profile.t :=
  let* user := getAuthUser in
  let* profile := db_profile_findUnique (user_id user) in
  match profile with
  | None => redirect "/profile/create"
  | Some profile => ret profile
  end.

Definition updateProfileAction `{Collaborators} (formData : FormData) : Action Message :=
  let* user := getAuthUser in
  try_catch
    (let rawData := fromEntries formData in
     let* validatedFields := validateWithZodSchema profileSchema rawData in
     let* _ := db_profile_update (user_id user) (data_fields validatedFields) in
     revalidatePath "/profile" ;;;
     ret (mkMessage "Profile updated successfully"))
    (fun error => ret (renderError error)).

Definition updateProfileImageAction `{Collaborators} (formData : FormData) : Action Message :=
  let* user := getAuthUser in
  try_catch
    (let image := formData_get "image" formData in
     let* validatedFields := validateWithZodSchema imageSchema image in
     let* fullPath := uploadImage validatedFields in
     let* _ := db_profile_update (user_id user) (data_profileImage fullPath) in
     revalidatePath "/profile" ;;;
     ret (mkMessage "Profile image updated successfully"))
    (fun error => ret (renderError error)).

Definition createPropertyAction `{Collaborators} (formData : FormData) : Action Message :=
  let* user := getAuthUser in
  let* returned :=
    try_catch
      (let rawData := fromEntries formData in
       let file := formData_get "image" formData in
       let* validatedFields := validateWithZodSchema propertySchema rawData in
       let* validatedFile := validateWithZodSchema imageSchema file in
       let* fullPath := uploadImage validatedFile in
       let* _ := db_property_create validatedFields fullPath (user_id user) in
       ret None)
      (fun error => ret (Some (renderError error))) in
  match returned with
  | Some result => ret result
  | None => redirect "/"
  end.

(** [search = ""] is the default of an absent [search]. *)
Definition fetchProperties `{Locale} (search category : option string)
  : Action (list PropertyCard) :=
  let search := default "" search in
  let* properties := db_property_findMany category search in
  ret properties.

(** Truthiness of a [string | null]: [null] and the empty string are
    falsy. *)
Definition truthy (s : option string) : bool :=
  match s with
  | None => false
  | Some s => negb (String.eqb s "")
  end.

Definition fetchFavoriteId (propertyId : string) : Action (option string) :=
  let* user := getAuthUser in
  let* favorite := db_favorite_findFirst propertyId (user_id user) in
  ret (if truthy favorite then favorite else None).

Record ToggleState : Type := mkToggleState {
  propertyId : string;
  favoriteId : option string;
  pathname : string
}.

Definition toggleFavoriteAction `{Collaborators} (prevState : ToggleState) : Action Message :=
  let* user := getAuthUser in
  try_catch
    ((if truthy (favoriteId prevState)
      then db_favorite_delete (default "" (favoriteId prevState))
      else let* _ := db_favorite_create (propertyId prevState) (user_id user) in ret tt) ;;;
     revalidatePath (pathname prevState) ;;;
     ret (mkMessage (if truthy (favoriteId prevState)
                     then "Removed from Faves" else "Added to Faves")))
    (fun error => ret (renderError error)).

Definition fetchFavorites : Action (list PropertyCard) :=
  let* user := getAuthUser in
  let* favorites := db_favorite_findMany_property (user_id user) in
  ret favorites.

(** ** [components/card/CountryFlagAndName.tsx] *)

(** What the component renders: the [code] given to [Flag] and the text
    after it. *)
Record FlagAndName : Type := mkFlagAndName {
  flag_code : option string;
  label : string
}.

(** [validCountry!.name]: the assertion is erased by the compiler, and the
    read of [name] on [undefined] throws a [TypeError]. *)
Definition CountryFlagAndName `{Collaborators} (countryCode : string) : outcome FlagAndName :=
  let validCountry := findCountryByCode countryCode in
  match validCountry with
  | None => Thrown (JsTypeError "name")
  | Some c =>
      let countryName :=
        if Nat.ltb 20 (String.length (country_name c))
        then String.append (String.substring 0 20 (country_name c)) "..."
        else country_name c in
      Ok (mkFlagAndName (option_map country_code validCountry) countryName)
  end.

(** ** A concrete configuration, for running the definitions *)

Module Sample.

(** [renderError] as the usual helper: the message of an [Error], a fixed
    text for anything else. *)
Definition render (t : thrown) : Message :=
  match t with
  | JsError msg => mkMessage msg
  | JsTypeError property =>
      mkMessage ("Cannot read properties of undefined (reading '" +:+ property +:+ "')")
  | NextRedirect _ => mkMessage "An error occurred"
  end.

Definition text_field (raw : gmap string FormDataEntryValue) (key : string)
  : string + string :=
  match raw !! key with
  | Some (EntryString s) =>
      if String.eqb s "" then inl (key +:+ " is required") else inr s
  | _ => inl (key +:+ " is required")
  end.

Definition profile_schema (raw : gmap string FormDataEntryValue)
  : string + ProfileFields :=
  match text_field raw "firstName" with
  | inl e => inl e
  | inr first =>
      match text_field raw "lastName" with
      | inl e => inl e
      | inr last =>
          match text_field raw "username" with
          | inl e => inl e
          | inr user => inr (mkProfileFields first last user)
          end
      end
  end.

Definition property_schema (raw : gmap string FormDataEntryValue)
  : string + PropertyFields :=
  match text_field raw "name" with
  | inl e => inl e
  | inr name =>
      match text_field raw "tagline" with
      | inl e => inl e
      | inr tagline =>
          inr (mkPropertyFields name tagline "cabin" "IT" "A place to stay"
                                100 2 1 1 1 "[]")
      end
  end.

Definition is_image (type : string) : bool := String.prefix "image/" type.

Definition store (f : File) (before : list File) : thrown + string :=
  if String.eqb (file_name f) "" then inl (JsError "Image upload failed")
  else inr ("https://storage.example/" +:+ file_name f).

Definition table : list Country :=
  [ mkCountry "IT" "Italy";
    mkCountry "BA" "Bosnia and Herzegovina";
    mkCountry "VC" "Saint Vincent and the Grenadines";
    mkCountry "SJ" "Svalbard & Jan Mayen" ].

(** A database in the C locale. *)
Definition locale : Locale := {| locale_lower := to_lower |}.

Definition collaborators : Collaborators :=
  {| renderError := render;
     profileSchema := profile_schema;
     propertySchema := property_schema;
     maxUploadSize := 1048576;
     acceptedFileType := is_image;
     imageRequiredMessage := "Image is required";
     imageSizeMessage := "File size must be less than 1 MB";
     imageTypeMessage := "File must be an image";
     uploadResult := store;
     countries := table |}.

Definition ann : Identity := mkIdentity ["ann@example.com"] None true.
Definition bob : Identity := mkIdentity ["bob@example.com"] (Some "bob.png") true.
Definition cat : Identity := mkIdentity ["cat@example.com"] None false.

Definition ann_profile : Profile.t :=
  Profile.mk "p1" "user_ann" "Ann" "Lee" "ann" "ann@example.com" "" 0 0.
Definition bob_profile : Profile.t :=
  Profile.mk "p2" "user_bob" "Bob" "Ray" "bob" "bob@example.com" "bob.png" 1 1.

Definition cabin : Property.t :=
  Property.mk "h1" "Lake cabin" "Quiet, with a POOL" "cabin" "cabin.png" "IT"
              "A cabin by the lake" 120 4 2 2 1 "[]" "user_bob" 2 2.
Definition tent : Property.t :=
  Property.mk "h2" "Big tent" "Under the stars" "tent" "tent.png" "BA"
              "A tent" 40 2 1 1 0 "[]" "user_bob" 3 3.

Definition bob_likes_cabin : Favorite.t := Favorite.mk "f1" "user_bob" "h1" 4 4.

Definition people : gmap string Identity :=
  <["user_ann" := ann]> (<["user_bob" := bob]> (<["user_cat" := cat]> ∅)).

Definition tables : Db :=
  mkDb [ann_profile; bob_profile] [cabin; tent] [bob_likes_cabin].

(** Ann is signed in. *)
Definition world : World := mkWorld (Some "user_ann") people tables 5 [] [].

(** Nobody is signed in. *)
Definition anonymous : World := mkWorld None people tables 5 [] [].

(** Cat is signed in and has no profile yet. *)
Definition newcomer : World := mkWorld (Some "user_cat") people tables 5 [] [].

Definition profile_form : FormData :=
  [ ("firstName", EntryString "Cat");
    ("lastName", EntryString "Fox");
    ("username", EntryString "cat") ].

Definition big_file : File := mkFile "big.png" 2000000 "image/png".
Definition text_file : File := mkFile "notes.txt" 10 "text/plain".
Definition good_file : File := mkFile "me.png" 1000 "image/png".

Definition listing_form (f : File) : FormData :=
  [ ("name", EntryString "Hill hut");
    ("tagline", EntryString "High up");
    ("image", EntryFile f) ].

Definition ann_user : User := mkUser "user_ann" ["ann@example.com"] None true.
Definition cat_user : User := mkUser "user_cat" ["cat@example.com"] None false.

End Sample.

(** ** Predicates the statements use *)

(** [column] contains [search] when case is ignored. *)
Definition occurs_insensitive `{Locale} (search column : string) : Prop :=
  exists before after, lower column = before +:+ lower search +:+ after.

(** A test for [needle] occurring in [hay], to decide it on a sample. *)
Fixpoint substringb (needle hay : string) : bool :=
  String.prefix needle hay ||
  match hay with
  | EmptyString => false
  | String _ rest => substringb needle rest
  end.

(** The search string reads as itself in a pattern. *)
Fixpoint wildcard_free (s : string) : bool :=
  match s with
  | EmptyString => true
  | String c rest => negb (is_wildcard c) && wildcard_free rest
  end.

(** The pattern that reads as [s], character by character. *)
Fixpoint exactly (s : string) : list like_token :=
  match s with
  | EmptyString => []
  | String c rest => Exactly c :: exactly rest
  end.

(** What it is for a string to match a pattern. *)
Inductive like_matches : list like_token -> string -> Prop :=
  | matches_end : like_matches [] ""
  | matches_exactly (c : ascii) (p : list like_token) (s : string) :
      like_matches p s -> like_matches (Exactly c :: p) (String c s)
  | matches_any_char (c : ascii) (p : list like_token) (s : string) :
      like_matches p s -> like_matches (AnyChar :: p) (String c s)
  | matches_any_string (skipped : string) (p : list like_token) (s : string) :
      like_matches p s -> like_matches (AnyString :: p) (skipped +:+ s).

(** The rows of [Favorite] for a pair of profile and property. *)
Definition favorites_of_pair (profileId propertyId : string) (w : World)
  : list Favorite.t :=
  List.filter (favorite_of profileId propertyId) (favorites (db w)).


(** The world after a toggle that removed the row of id [id]. *)
Definition after_delete (id path : string) (w : World) : World :=
  mkWorld (session w) (identities w)
          (mkDb (profiles (db w)) (properties (db w))
                (List.filter (fun g => negb (String.eqb (Favorite.id g) id))
                             (favorites (db w))))
          (S (clock w)) (uploads w) (revalidated w ++ [path]).

(** The world after a toggle that added a row for [profileId] and
    [propertyId]. *)
Definition new_favorite (profileId propertyId : string) (w : World) : Favorite.t :=
  Favorite.mk (uuid (map Favorite.id (favorites (db w)))) profileId propertyId
              (clock w) (clock w).

Definition after_create (profileId propertyId path : string) (w : World) : World :=
  mkWorld (session w) (identities w)
          (mkDb (profiles (db w)) (properties (db w))
                (favorites (db w) ++ [new_favorite profileId propertyId w]))
          (S (clock w)) (uploads w) (revalidated w ++ [path]).

(** A run of toggles by the signed-in identity on one property in which
    each call is given the favorite id that [fetchFavoriteId] answers at
    that moment, as the page that shows the toggle does. *)
Inductive toggles_in_sync `{Collaborators} (property : string) : World -> World -> Prop :=
  | sync_none (w : World) : toggles_in_sync property w w
  | sync_toggle (w w1 w2 : World) (fid : option string) (path : string)
                (r : outcome Message) :
      fetchFavoriteId property w = (Ok fid, w) ->
      toggleFavoriteAction (mkToggleState property fid path) w = (r, w1) ->
      toggles_in_sync property w1 w2 ->
      toggles_in_sync property w w2.

(** Every id of the table of favorites is one the store generated. *)
Definition ids_not_empty (w : World) : Prop :=
  Forall (fun f => Favorite.id f <> "") (favorites (db w)).

Definition at_most_one_favorite (profileId propertyId : string) (w : World) : Prop :=
  length (favorites_of_pair profileId propertyId w) <= 1.

(** ** More of the sample configuration *)

Module Tour.

Definition bob_user : User :=
  mkUser "user_bob" ["bob@example.com"] (Some "bob.png") true.

(** Bob is signed in. *)
Definition bob_signed_in : World :=
  mkWorld (Some "user_bob") Sample.people Sample.tables 5 [] [].

Definition image_form (f : File) : FormData := [ ("image", EntryFile f) ].

Definition cat_fields : ProfileFields := mkProfileFields "Cat" "Fox" "cat".

Definition hut_fields : PropertyFields :=
  mkPropertyFields "Hill hut" "High up" "cabin" "IT" "A place to stay"
                   100 2 1 1 1 "[]".

Definition login_error : thrown :=
  JsError "You must be logged in to access this route".

End Tour.

(** ** The rest of [utils/actions.ts] *)

(** A property with its owner: [include: { profile: true }]. *)
Record PropertyDetails : Type := mkPropertyDetails {
  details_property : Property.t;
  details_profile : Profile.t
}.

(** [db.property.findUnique({ where: { id }, include: { profile: true } })]:
    [null] when no row has that id; the relation [profile] is required, and
    a row whose owner is missing is an inconsistent result. *)
Definition db_property_findUnique_include_profile (id : string)
  : Action (option PropertyDetails) :=
  fun w =>
    let d := db w in
    match List.find (fun p => String.eqb (Property.id p) id) (properties d) with
    | None => (Ok None, w)
    | Some p =>
        match List.find (fun o => String.eqb (Profile.clerkId o) (Property.profileId p))
                        (profiles d) with
        | Some owner => (Ok (Some (mkPropertyDetails p owner)), w)
        | None =>
            (Thrown (JsError "Inconsistent query result: Field profile is required to return data, got `null` instead."), w)
        end
    end.

Definition fetchPropertyDetails (id : string) : Action (option PropertyDetails) :=
  db_property_findUnique_include_profile id.

(** ** What the schema promises of a stored state *)

(** [@id] and [@unique]: keys are not repeated; [@default(uuid())]: an id is
    not empty; [@relation]: a reference points at a stored row. *)
Definition db_wf (d : Db) : Prop :=
  List.NoDup (map Profile.id (profiles d)) /\
  List.NoDup (map Profile.clerkId (profiles d)) /\
  List.NoDup (map Property.id (properties d)) /\
  List.NoDup (map Favorite.id (favorites d)) /\
  List.Forall (fun f => Favorite.id f <> "") (favorites d) /\
  (forall p, In p (properties d) ->
     In (Property.profileId p) (map Profile.clerkId (profiles d))) /\
  (forall f, In f (favorites d) ->
     In (Favorite.profileId f) (map Profile.clerkId (profiles d)) /\
     In (Favorite.propertyId f) (map Property.id (properties d))).

(** The action keeps [P] of the world, however it ends. *)
Definition preserves {A} (P : World -> Prop) (m : Action A) : Prop :=
  forall w, P w -> P (snd (m w)).

(** * Properties *)

(** ** Strings *)

Lemma prefix_split (p s : string) :
  String.prefix p s = true -> exists rest, s = p +:+ rest.
Proof.
  revert s. induction p as [|c p IH]; intros s Hp.
  - exists s. reflexivity.
  - destruct s as [|d s]; simpl in Hp; [discriminate|].
    destruct (Ascii.ascii_dec c d) as [->|]; [|discriminate].
    destruct (IH s Hp) as [rest ->]. exists rest. reflexivity.
Qed.

Lemma substringb_occurs (needle hay : string) :
  substringb needle hay = true ->
  exists before after, hay = before +:+ needle +:+ after.
Proof.
  induction hay as [|c hay IH]; cbn [substringb]; intros Hs.
  - rewrite orb_false_r in Hs. destruct (prefix_split _ _ Hs) as [rest ->].
    exists "", rest. reflexivity.
  - apply orb_true_iff in Hs as [Hs|Hs].
    + destruct (prefix_split _ _ Hs) as [rest ->]. exists "", rest. reflexivity.
    + destruct (IH Hs) as (before & after & ->).
      exists (String c before), after. reflexivity.
Qed.

Lemma substringb_empty (hay : string) : substringb "" hay = true.
Proof. destruct hay; reflexivity. Qed.

Lemma prefix_append (p rest : string) : String.prefix p (p +:+ rest) = true.
Proof.
  induction p as [|c p IH]; [destruct rest; reflexivity|].
  simpl. destruct (Ascii.ascii_dec c c) as [_|Hne]; [exact IH|destruct Hne; reflexivity].
Qed.

Lemma occurs_substringb (needle before after : string) :
  substringb needle (before +:+ needle +:+ after) = true.
Proof.
  induction before as [|c before IH].
  - change ("" +:+ needle +:+ after) with (needle +:+ after).
    destruct (needle +:+ after) eqn:Hs; cbn [substringb]; rewrite <- Hs;
      rewrite prefix_append; reflexivity.
  - change (String c before +:+ needle +:+ after)
      with (String c (before +:+ needle +:+ after)).
    cbn [substringb]. rewrite IH. apply orb_true_r.
Qed.

(** ** Patterns *)

Lemma some_suffix_spec (f : string -> bool) (s : string) :
  some_suffix f s = true <-> exists skipped rest, s = skipped +:+ rest /\ f rest = true.
Proof.
  induction s as [|c s IH]; cbn [some_suffix].
  - rewrite orb_false_r. split.
    + intros Hf. exists "", "". split; [reflexivity|exact Hf].
    + intros (skipped & rest & Hs & Hf). destruct skipped; [|discriminate].
      change ("" = rest) in Hs. subst rest. exact Hf.
  - rewrite orb_true_iff, IH. split.
    + intros [Hf|(skipped & rest & -> & Hf)].
      * exists "", (String c s). split; [reflexivity|exact Hf].
      * exists (String c skipped), rest. split; [reflexivity|exact Hf].
    + intros (skipped & rest & Hs & Hf). destruct skipped as [|d skipped].
      * change (String c s = rest) in Hs. subst rest. left. exact Hf.
      * change (String c s = String d (skipped +:+ rest)) in Hs.
        injection Hs as -> ->. right. exists skipped, rest. split; [reflexivity|exact Hf].
Qed.

Lemma like_tokens_spec (p : list like_token) (s : string) :
  like_tokens p s = true <-> like_matches p s.
Proof.
  revert s. induction p as [|t p IH]; intros s.
  - destruct s; simpl; split; intros Hm; try constructor; try discriminate.
    inversion Hm.
  - destruct t; cbn [like_tokens].
    + rewrite some_suffix_spec. split.
      * intros (skipped & rest & -> & Hf). constructor. apply IH. exact Hf.
      * intros Hm. inversion Hm as [| | |skipped p' s' Hm']; subst.
        exists skipped, s'. split; [reflexivity|]. apply IH. exact Hm'.
    + destruct s as [|d s].
      * split; [discriminate|]. intros Hm. inversion Hm.
      * rewrite IH. split; [apply matches_any_char|].
        intros Hm. inversion Hm; subst. assumption.
    + destruct s as [|d s].
      * split; [discriminate|]. intros Hm. inversion Hm.
      * rewrite andb_true_iff, Ascii.eqb_eq, IH. split.
        -- intros [-> Hm]. constructor. exact Hm.
        -- intros Hm. inversion Hm; subst. split; [reflexivity|assumption].
Qed.

Lemma like_pattern_cons (c : ascii) (rest : string) :
  like_pattern (String c rest)
  = if Ascii.eqb c "\" then
      match rest with
      | EmptyString => None
      | String d rest' => option_map (cons (Exactly d)) (like_pattern rest')
      end
    else
      option_map
        (cons (if Ascii.eqb c "%" then AnyString
               else if Ascii.eqb c "_" then AnyChar else Exactly c))
        (like_pattern rest).
Proof. reflexivity. Qed.

Lemma like_pattern_closed (s : string) :
  (exists toks, like_pattern (s +:+ "%") = Some toks) /\
  (forall d, exists toks, like_pattern (String d (s +:+ "%")) = Some toks).
Proof.
  induction s as [|c s [IH1 IH2]].
  - split; [eexists; reflexivity|]. intros d. cbn.
    destruct (Ascii.eqb d "\"); eexists; reflexivity.
  - split; [apply IH2|]. intros d.
    change (String c s +:+ "%") with (String c (s +:+ "%")).
    rewrite like_pattern_cons. destruct (Ascii.eqb d "\").
    + destruct IH1 as [toks ->]. eexists. reflexivity.
    + destruct (IH2 c) as [toks ->]. eexists. reflexivity.
Qed.

Lemma like_pattern_exactly (s : string) :
  wildcard_free s = true ->
  like_pattern (s +:+ "%") = Some (exactly s ++ [AnyString])%list.
Proof.
  induction s as [|c s IH]; [reflexivity|]. cbn [wildcard_free].
  intros Hfree. apply andb_true_iff in Hfree as [Hc Hfree].
  unfold is_wildcard in Hc. apply negb_true_iff in Hc.
  apply orb_false_iff in Hc as [Hc Hb]. apply orb_false_iff in Hc as [Hp Hu].
  change (String c s +:+ "%") with (String c (s +:+ "%")).
  rewrite like_pattern_cons, Hb, Hp, Hu, (IH Hfree). reflexivity.
Qed.

Lemma append_empty_r (s : string) : s +:+ "" = s.
Proof.
  induction s as [|d s IH]; [reflexivity|].
  change (String d (s +:+ "") = String d s). rewrite IH. reflexivity.
Qed.

Lemma append_assoc (a b c : string) : (a +:+ b) +:+ c = a +:+ (b +:+ c).
Proof.
  induction a as [|x a IH]; [reflexivity|].
  change (String x ((a +:+ b) +:+ c) = String x (a +:+ (b +:+ c))).
  rewrite IH. reflexivity.
Qed.

Lemma like_matches_exactly (t s : string) :
  like_matches (exactly t ++ [AnyString])%list s <-> exists after, s = t +:+ after.
Proof.
  revert s. induction t as [|c t IH]; intros s; cbn [exactly app].
  - split.
    + intros _. exists s. reflexivity.
    + intros _. rewrite <- (append_empty_r s). constructor. constructor.
  - split.
    + intros Hm. inversion Hm as [|c' p' s' Hm'| |]; subst.
      apply IH in Hm' as [after ->]. exists after. reflexivity.
    + intros [after ->]. constructor. apply IH. exists after. reflexivity.
Qed.

Lemma like_matches_contains (t s : string) :
  like_matches (AnyString :: exactly t ++ [AnyString])%list s <->
  exists before after, s = before +:+ t +:+ after.
Proof.
  split.
  - intros Hm. inversion Hm as [| | |skipped p' s' Hm']; subst.
    apply like_matches_exactly in Hm' as [after ->]. exists skipped, after. reflexivity.
  - intros (before & after & ->). constructor. apply like_matches_exactly.
    exists after. reflexivity.
Qed.

Lemma like_everything (s : string) : like_tokens [AnyString; AnyString] s = true.
Proof.
  apply like_tokens_spec. apply (like_matches_contains "" s).
  exists "", s. reflexivity.
Qed.

Lemma substring_first (n : nat) (s : string) :
  n <= String.length s ->
  exists rest, s = String.substring 0 n s +:+ rest /\
               String.length (String.substring 0 n s) = n.
Proof.
  revert s. induction n as [|n IH]; intros s Hn.
  - exists s. destruct s; split; reflexivity.
  - destruct s as [|c s]; simpl in Hn; [lia|].
    destruct (IH s) as (rest & Hs & Hl); [lia|].
    exists rest. split.
    + change (String c s = String c (String.substring 0 n s +:+ rest)).
      rewrite <- Hs. reflexivity.
    + change (S (String.length (String.substring 0 n s)) = S n).
      rewrite Hl. reflexivity.
Qed.

Lemma longest_bound (l : list string) (s : string) :
  In s l -> String.length s <= String.length (longest l).
Proof.
  induction l as [|x l IH]; simpl; [tauto|].
  intros [->|Hin].
  - destruct (Nat.ltb_spec (String.length (longest l)) (String.length s)); lia.
  - specialize (IH Hin).
    destruct (Nat.ltb_spec (String.length (longest l)) (String.length x)); lia.
Qed.

Lemma uuid_fresh (taken : list string) : ~ In (uuid taken) taken.
Proof.
  intros Hin. apply longest_bound in Hin. unfold uuid in Hin. simpl in Hin. lia.
Qed.

Lemma uuid_not_empty (taken : list string) : uuid taken <> "".
Proof. discriminate. Qed.

Section Properties.

Context `{Collaborators}.
Context {locale : Locale}.

Lemma lower_append (a b : string) : lower (a +:+ b) = lower a +:+ lower b.
Proof.
  induction a as [|c a IH]; [reflexivity|].
  change (String (lower_char c) (lower (a +:+ b))
          = String (lower_char c) (lower a +:+ lower b)).
  rewrite IH. reflexivity.
Qed.

Lemma lower_contains_pattern (search : string) :
  lower (contains_pattern search) = String "%" (lower search +:+ "%").
Proof.
  unfold contains_pattern. rewrite !lower_append. reflexivity.
Qed.

Lemma contains_pattern_parses (search : string) :
  exists toks,
    like_pattern (lower (contains_pattern search)) = Some (AnyString :: toks) /\
    like_pattern (lower search +:+ "%") = Some toks.
Proof.
  rewrite lower_contains_pattern.
  destruct (like_pattern_closed (lower search)) as [[toks Ht] _].
  exists toks. split; [|exact Ht]. rewrite like_pattern_cons, Ht. reflexivity.
Qed.

(** For a search string that reads as itself, matching the pattern of
    [contains] is containing the string, case ignored. *)
Lemma contains_pattern_occurs (search column : string) :
  wildcard_free (lower search) = true ->
  exists pattern,
    like_pattern (lower (contains_pattern search)) = Some pattern /\
    (like_tokens pattern (lower column) = true <-> occurs_insensitive search column).
Proof.
  intros Hfree. destruct (contains_pattern_parses search) as (toks & Hp & Ht).
  rewrite (like_pattern_exactly _ Hfree) in Ht. injection Ht as <-.
  eexists. split; [exact Hp|].
  rewrite like_tokens_spec. apply like_matches_contains.
Qed.

(** ** The country label *)

Lemma findCountryByCode_some (code : string) (c : Country) :
  findCountryByCode code = Some c -> In c countries /\ country_code c = code.
Proof.
  unfold findCountryByCode. intros Hf. apply find_some in Hf as [Hin Heq].
  split; [exact Hin|]. apply String.eqb_eq. exact Heq.
Qed.

Lemma findCountryByCode_none (code : string) :
  findCountryByCode code = None <->
  forall c, In c countries -> country_code c <> code.
Proof.
  unfold findCountryByCode. split.
  - intros Hf c Hin Heq. apply (find_none _ _ Hf) in Hin.
    apply String.eqb_neq in Hin. contradiction.
  - intros Hall. destruct (List.find _ countries) as [c|] eqn:Hf; [|reflexivity].
    apply find_some in Hf as [Hin Heq]. apply String.eqb_eq in Heq.
    destruct (Hall c Hin Heq).
Qed.

(** C8: the country label is a function of the code and the country table
    alone (it neither reads nor changes the world).  For a code the table
    has, it renders the flag of the country found under that code, and the
    name: a name of more than 20 characters as its first 20 characters
    followed by three dots, a name of 20 characters or fewer as it is. *)
Theorem CountryFlagAndName_truncates (countryCode : string) (c : Country) :
  findCountryByCode countryCode = Some c ->
  In c countries /\ country_code c = countryCode /\
  exists shown,
    CountryFlagAndName countryCode = Ok (mkFlagAndName (Some countryCode) shown) /\
    (20 < String.length (country_name c) ->
       exists first rest,
         country_name c = first +:+ rest /\ String.length first = 20 /\
         shown = first +:+ "...") /\
    (String.length (country_name c) <= 20 -> shown = country_name c).
Proof.
  intros Hf. destruct (findCountryByCode_some _ _ Hf) as [Hin Hcode].
  split; [exact Hin|]. split; [exact Hcode|].
  unfold CountryFlagAndName. rewrite Hf. simpl. rewrite Hcode.
  eexists. split; [reflexivity|]. split.
  - intros Hlong. destruct (substring_first 20 (country_name c)) as (rest & Hs & Hl); [lia|].
    exists (String.substring 0 20 (country_name c)), rest.
    split; [exact Hs|]. split; [exact Hl|].
    destruct (Nat.ltb_spec 20 (String.length (country_name c))); [reflexivity|lia].
  - intros Hshort.
    destruct (Nat.ltb_spec 20 (String.length (country_name c))); [lia|reflexivity].
Qed.

(** C10: the component renders exactly for the codes of the country table.
    For a code the table does not have, the lookup gives [undefined], the
    read of its [name] throws, and nothing is rendered in its place. *)
Theorem CountryFlagAndName_unknown_code_throws (countryCode : string) :
  ((forall c, In c countries -> country_code c <> countryCode) ->
   CountryFlagAndName countryCode = Thrown (JsTypeError "name")) /\
  ((exists rendered, CountryFlagAndName countryCode = Ok rendered) <->
   (exists c, In c countries /\ country_code c = countryCode)).
Proof.
  split; [|split].
  - intros Hall. apply findCountryByCode_none in Hall.
    unfold CountryFlagAndName. rewrite Hall. reflexivity.
  - intros [rendered Hr]. unfold CountryFlagAndName in Hr.
    destruct (findCountryByCode countryCode) as [c|] eqn:Hf; [|discriminate].
    exists c. apply findCountryByCode_some. exact Hf.
  - intros (c & Hin & Hcode).
    unfold CountryFlagAndName.
    destruct (findCountryByCode countryCode) as [c'|] eqn:Hf.
    + eexists. reflexivity.
    + destruct (proj1 (findCountryByCode_none _) Hf c Hin Hcode).
Qed.

(** ** Running an action *)

Lemma currentUser_pure (w : World) : snd (currentUser w) = w.
Proof. reflexivity. Qed.

Lemma getAuthUser_world (w : World) : snd (getAuthUser w) = w.
Proof.
  unfold getAuthUser, bind, currentUser. simpl.
  destruct (session w) as [sid|]; [|reflexivity].
  destruct (identities w !! sid) as [i|]; [|reflexivity].
  simpl. destruct (identity_hasProfile i); reflexivity.
Qed.

Lemma run_currentUser {A} (k : option User -> Action A) (w : World) (o : option User) :
  fst (currentUser w) = Ok o -> bind currentUser k w = k o w.
Proof. unfold bind. simpl. intros [= ->]. reflexivity. Qed.

Lemma run_findUnique {A} (k : option Profile.t -> Action A) (w : World)
      (clerkId : string) (o : option Profile.t) :
  fst (db_profile_findUnique clerkId w) = Ok o ->
  bind (db_profile_findUnique clerkId) k w = k o w.
Proof. unfold bind. simpl. intros [= ->]. reflexivity. Qed.

(** Sequencing after a step whose result and world are known. *)
Lemma run_from {A B} (m : Action A) (k : A -> Action B) (w w' : World) (a : A) :
  m w = (Ok a, w') -> bind m k w = k a w'.
Proof. unfold bind. intros ->. reflexivity. Qed.

Lemma run_thrown {A B} (m : Action A) (k : A -> Action B) (w w' : World) (t : thrown) :
  m w = (Thrown t, w') -> bind m k w = (Thrown t, w').
Proof. unfold bind. intros ->. reflexivity. Qed.

(** The identity-resolution step ends in one of three ways. *)
Lemma getAuthUser_cases (w : World) :
  (fst (currentUser w) = Ok None /\
   getAuthUser w = (Thrown (JsError "You must be logged in to access this route"), w)) \/
  (exists user, fst (currentUser w) = Ok (Some user) /\ hasProfile user = false /\
                getAuthUser w = (Thrown (NextRedirect "/profile/create"), w)) \/
  (exists user, fst (currentUser w) = Ok (Some user) /\ hasProfile user = true /\
                getAuthUser w = (Ok user, w)).
Proof.
  unfold getAuthUser, bind, currentUser. simpl.
  destruct (session w) as [sid|]; [|left; split; reflexivity].
  destruct (identities w !! sid) as [i|]; [|left; split; reflexivity].
  right. destruct (identity_hasProfile i) eqn:Hflag; simpl.
  - right. eexists. split; [reflexivity|]. simpl. split; reflexivity.
  - left. eexists. split; [reflexivity|]. simpl. split; reflexivity.
Qed.

(** ** Search *)

(** C5, as the code has it: a search needs no signed-in subject, never
    fails and changes nothing.  Each row it returns is the listing
    projection (id, name, tagline, country, image, price) of a stored
    property of the wanted category whose lower-cased name or tagline
    matches the search string read as a pattern between two [%]: in the
    search string [%] and [_] are wildcards and a backslash escapes.  When
    the lower-cased search string has none of these three characters, each
    row returned has the search string, case ignored, in its name or in its
    tagline.  With an empty search string the search returns the projection
    of every row of the wanted category. *)
Theorem fetchProperties_matches_pattern (search category : option string) (w : World) :
  exists (pattern : list like_token) (cards : list PropertyCard),
    like_pattern (lower (contains_pattern (default "" search))) = Some pattern /\
    fetchProperties search category w = (Ok cards, w) /\
    (forall card, In card cards ->
       exists p, In p (properties (db w)) /\ card = select_card p /\
                 category_is category p = true /\
                 (like_matches pattern (lower (Property.name p)) \/
                  like_matches pattern (lower (Property.tagline p)))) /\
    (wildcard_free (lower (default "" search)) = true ->
     forall card, In card cards ->
       exists p, In p (properties (db w)) /\ card = select_card p /\
                 category_is category p = true /\
                 (occurs_insensitive (default "" search) (Property.name p) \/
                  occurs_insensitive (default "" search) (Property.tagline p))) /\
    (default "" search = "" ->
       cards = map select_card
                 (List.filter (category_is category) (properties (db w)))).
Proof.
  destruct (contains_pattern_parses (default "" search)) as (toks & Hp & Ht).
  assert (Hrows : forall card,
            In card (map select_card
                       (List.filter
                          (fun p => category_is category p &&
                                    (like_tokens (AnyString :: toks) (lower (Property.name p)) ||
                                     like_tokens (AnyString :: toks) (lower (Property.tagline p))))
                          (properties (db w)))) ->
            exists p, In p (properties (db w)) /\ card = select_card p /\
                      category_is category p = true /\
                      (like_tokens (AnyString :: toks) (lower (Property.name p)) = true \/
                       like_tokens (AnyString :: toks) (lower (Property.tagline p)) = true)).
  { intros card Hin. apply in_map_iff in Hin as (p & <- & Hin).
    apply filter_In in Hin as [Hin Hkeep].
    apply andb_true_iff in Hkeep as [Hcat Hhit]. apply orb_true_iff in Hhit.
    exists p. tauto. }
  eexists. eexists. split; [exact Hp|]. split; [|split; [|split]].
  - unfold fetchProperties, bind, db_property_findMany. rewrite Hp. reflexivity.
  - intros card Hin. destruct (Hrows card Hin) as (p & Hin' & Hcard & Hcat & Hhit).
    exists p. rewrite <- !like_tokens_spec. tauto.
  - intros Hfree card Hin.
    destruct (Hrows card Hin) as (p & Hin' & Hcard & Hcat & Hhit).
    exists p. split; [exact Hin'|]. split; [exact Hcard|]. split; [exact Hcat|].
    destruct (contains_pattern_occurs (default "" search) (Property.name p) Hfree)
      as (pattern1 & Hp1 & Hname).
    destruct (contains_pattern_occurs (default "" search) (Property.tagline p) Hfree)
      as (pattern2 & Hp2 & Htag).
    rewrite Hp in Hp1, Hp2. injection Hp1 as <-. injection Hp2 as <-.
    destruct Hhit as [Hhit|Hhit]; [left; apply Hname|right; apply Htag]; exact Hhit.
  - intros Hempty. f_equal. apply filter_ext. intros p.
    rewrite Hempty in Hp. injection Hp as <-.
    rewrite like_everything. cbn [orb]. apply andb_true_r.
Qed.

(** ** Reading the profile *)

(** C4, as the code has it: [fetchProfile] needs a resolved identity, fails
    with the authorization error without one, and redirects to onboarding
    when the identity's flag is unset or no profile row exists;
    [fetchProfileImage] gives [null] without an identity and [undefined]
    without a profile row, and neither fails nor redirects.  Both leave the
    world as it was. *)
Theorem fetchProfile_and_image_read (w : World) :
  (fst (currentUser w) = Ok None ->
     fetchProfile w = (Thrown (JsError "You must be logged in to access this route"), w) /\
     fetchProfileImage w = (Ok JsNull, w)) /\
  (forall user, fst (currentUser w) = Ok (Some user) ->
     hasProfile user = false ->
     fetchProfile w = (Thrown (NextRedirect "/profile/create"), w)) /\
  (forall user, fst (currentUser w) = Ok (Some user) ->
     fst (db_profile_findUnique (user_id user) w) = Ok None ->
     (hasProfile user = true ->
      fetchProfile w = (Thrown (NextRedirect "/profile/create"), w)) /\
     fetchProfileImage w = (Ok JsUndefined, w)) /\
  (forall user profile, fst (currentUser w) = Ok (Some user) ->
     fst (db_profile_findUnique (user_id user) w) = Ok (Some profile) ->
     (hasProfile user = true -> fetchProfile w = (Ok profile, w)) /\
     fetchProfileImage w = (Ok (JsValue (Profile.profileImage profile)), w)) /\
  snd (fetchProfile w) = w /\ snd (fetchProfileImage w) = w.
Proof.
  assert (Hget : forall user, fst (currentUser w) = Ok (Some user) ->
                 hasProfile user = true -> getAuthUser w = (Ok user, w)).
  { intros user Hu Hflag.
    destruct (getAuthUser_cases w) as [[Hn _]|[(u & Hu' & Hf & _)|(u & Hu' & _ & Hg)]];
      congruence. }
  split; [|split; [|split; [|split; [|split]]]].
  - intros Hnone. split.
    + unfold fetchProfile.
      destruct (getAuthUser_cases w) as [[_ Hg]|[(u & Hu & _)|(u & Hu & _)]];
        [|congruence..].
      rewrite (run_thrown _ _ _ _ _ Hg). reflexivity.
    + unfold fetchProfileImage. rewrite (run_currentUser _ _ _ Hnone). reflexivity.
  - intros user Hu Hflag. unfold fetchProfile.
    destruct (getAuthUser_cases w) as [[Hn _]|[(u & Hu' & _ & Hg)|(u & Hu' & Hf & _)]];
      [congruence| |congruence].
    rewrite (run_thrown _ _ _ _ _ Hg). reflexivity.
  - intros user Hu Hrow. split.
    + intros Hflag. unfold fetchProfile.
      rewrite (run_from _ _ _ _ _ (Hget user Hu Hflag)).
      rewrite (run_findUnique _ _ _ _ Hrow). reflexivity.
    + unfold fetchProfileImage.
      rewrite (run_currentUser _ _ _ Hu), (run_findUnique _ _ _ _ Hrow). reflexivity.
  - intros user profile Hu Hrow. split.
    + intros Hflag. unfold fetchProfile.
      rewrite (run_from _ _ _ _ _ (Hget user Hu Hflag)).
      rewrite (run_findUnique _ _ _ _ Hrow). reflexivity.
    + unfold fetchProfileImage.
      rewrite (run_currentUser _ _ _ Hu), (run_findUnique _ _ _ _ Hrow). reflexivity.
  - unfold fetchProfile, bind.
    pose proof (getAuthUser_world w) as Hw.
    destruct (getAuthUser w) as [[user|t] w0]; simpl in Hw; subst w0; [|reflexivity].
    unfold db_profile_findUnique. destruct (List.find _ _); reflexivity.
  - unfold fetchProfileImage, bind, currentUser, db_profile_findUnique.
    destruct (session w) as [sid|]; [|reflexivity].
    destruct (identities w !! sid); [|reflexivity].
    destruct (List.find _ _); reflexivity.
Qed.

(** ** Favorites *)

Lemma getAuthUser_same (w w' : World) (user : User) :
  session w' = session w -> identities w' = identities w ->
  getAuthUser w = (Ok user, w) -> getAuthUser w' = (Ok user, w').
Proof.
  intros Hs Hi Hg.
  pose proof (getAuthUser_world w') as Hw.
  assert (Hfst : fst (getAuthUser w') = fst (getAuthUser w)).
  { unfold getAuthUser, bind, currentUser. simpl. rewrite Hs, Hi.
    destruct (session w) as [sid|]; [|reflexivity].
    destruct (identities w !! sid) as [i|]; [|reflexivity].
    simpl. destruct (identity_hasProfile i); reflexivity. }
  rewrite Hg in Hfst. simpl in Hfst.
  destruct (getAuthUser w') as [r w0]. simpl in *. congruence.
Qed.

Lemma delete_keeps_others (id : string) (l : list Favorite.t) :
  ~ In id (map Favorite.id l) ->
  List.filter (fun f => negb (String.eqb (Favorite.id f) id)) l = l.
Proof.
  induction l as [|x l IH]; simpl; intros Hn; [reflexivity|].
  destruct (String.eqb_spec (Favorite.id x) id) as [He|He]; simpl.
  - destruct Hn. left. exact He.
  - f_equal. apply IH. tauto.
Qed.


Lemma toggle_delete_run (w : World) (user : User) (fid property path : string) :
  getAuthUser w = (Ok user, w) ->
  fid <> "" ->
  In fid (map Favorite.id (favorites (db w))) ->
  toggleFavoriteAction (mkToggleState property (Some fid) path) w
  = (Ok (mkMessage "Removed from Faves"), after_delete fid path w).
Proof.
  intros Hauth Hid Hin.
  assert (Hex : existsb (fun g => String.eqb (Favorite.id g) fid)
                        (favorites (db w)) = true).
  { apply in_map_iff in Hin as (f & Hf & Hin).
    apply existsb_exists. exists f. split; [exact Hin|]. apply String.eqb_eq. exact Hf. }
  assert (Htruthy : truthy (Some fid) = true).
  { simpl. apply negb_true_iff. apply String.eqb_neq. exact Hid. }
  unfold toggleFavoriteAction. rewrite (run_from _ _ _ _ _ Hauth).
  cbn [favoriteId propertyId pathname]. rewrite Htruthy.
  unfold try_catch, bind, db_favorite_delete. cbn [from_option id]. rewrite Hex.
  reflexivity.
Qed.

Lemma toggle_create_run (w : World) (user : User) (fid : option string)
      (property path : string) :
  getAuthUser w = (Ok user, w) ->
  truthy fid = false ->
  existsb (fun p => String.eqb (Profile.clerkId p) (user_id user)) (profiles (db w)) = true ->
  existsb (fun p => String.eqb (Property.id p) property) (properties (db w)) = true ->
  toggleFavoriteAction (mkToggleState property fid path) w
  = (Ok (mkMessage "Added to Faves"), after_create (user_id user) property path w).
Proof.
  intros Hauth Hfalsy Hprofile Hproperty.
  unfold toggleFavoriteAction. rewrite (run_from _ _ _ _ _ Hauth).
  cbn [favoriteId propertyId pathname]. rewrite Hfalsy.
  unfold try_catch, bind, db_favorite_create. rewrite Hprofile, Hproperty.
  reflexivity.
Qed.

Lemma filter_pair_fresh (profileId propertyId : string) (l : list Favorite.t) (row : Favorite.t) :
  List.filter (favorite_of profileId propertyId) l = [] ->
  Favorite.profileId row = profileId -> Favorite.propertyId row = propertyId ->
  List.filter (favorite_of profileId propertyId) (l ++ [row]) = [row].
Proof.
  intros Hnone Hp Hq. rewrite List.filter_app, Hnone. simpl.
  unfold favorite_of. rewrite Hp, Hq, !String.eqb_refl. reflexivity.
Qed.

(** C9: a toggle with a favorite id removes the row of that id, whatever
    profile and property the row is for: neither the caller's identity nor
    the property of the call enters the deletion.  So a caller who gives the
    id of another profile's favorite removes that favorite. *)
Theorem toggleFavorite_deletes_by_id_alone
        (w : World) (user : User) (f : Favorite.t) (property path : string) :
  getAuthUser w = (Ok user, w) ->
  In f (favorites (db w)) ->
  Favorite.id f <> "" ->
  exists w',
    toggleFavoriteAction (mkToggleState property (Some (Favorite.id f)) path) w
    = (Ok (mkMessage "Removed from Faves"), w') /\
    favorites (db w')
    = List.filter (fun g => negb (String.eqb (Favorite.id g) (Favorite.id f)))
                  (favorites (db w)) /\
    ~ In f (favorites (db w')).
Proof.
  intros Hauth Hin Hid. exists (after_delete (Favorite.id f) path w).
  split; [|split].
  - apply (toggle_delete_run w user); [exact Hauth|exact Hid|].
    apply in_map. exact Hin.
  - reflexivity.
  - simpl. intros Hf. apply filter_In in Hf as [_ Hf].
    rewrite String.eqb_refl in Hf. discriminate.
Qed.

(** C3: for a signed-in identity with a profile and a stored property that
    the identity has not marked, a toggle without a favorite id adds one
    row for the pair and answers that it was added; a second toggle with
    the id of that row removes that row and answers that it was removed;
    after both, the table of favorites is what it was before and has no row
    for the pair. *)
Theorem toggleFavorite_round_trip (w : World) (user : User) (property path : string) :
  getAuthUser w = (Ok user, w) ->
  (exists p, In p (profiles (db w)) /\ Profile.clerkId p = user_id user) ->
  (exists p, In p (properties (db w)) /\ Property.id p = property) ->
  favorites_of_pair (user_id user) property w = [] ->
  exists (row : Favorite.t) (w1 w2 : World),
    toggleFavoriteAction (mkToggleState property None path) w
    = (Ok (mkMessage "Added to Faves"), w1) /\
    favorites (db w1) = (favorites (db w) ++ [row])%list /\
    Favorite.profileId row = user_id user /\
    Favorite.propertyId row = property /\
    favorites_of_pair (user_id user) property w1 = [row] /\
    toggleFavoriteAction (mkToggleState property (Some (Favorite.id row)) path) w1
    = (Ok (mkMessage "Removed from Faves"), w2) /\
    favorites (db w2) = favorites (db w) /\
    favorites_of_pair (user_id user) property w2 = [].
Proof.
  intros Hauth (p & Hp & Hclerk) (q & Hq & Hprop) Hnone.
  set (row := new_favorite (user_id user) property w).
  set (w1 := after_create (user_id user) property path w).
  assert (Hkept : favorites (db (after_delete (Favorite.id row) path w1))
                  = favorites (db w)).
  { simpl. rewrite List.filter_app. simpl. rewrite String.eqb_refl. simpl.
    rewrite app_nil_r. apply delete_keeps_others. apply uuid_fresh. }
  exists row, w1, (after_delete (Favorite.id row) path w1).
  split; [|split; [|split; [|split; [|split; [|split; [|split]]]]]].
  - apply toggle_create_run; [exact Hauth|reflexivity| |].
    + apply existsb_exists. exists p. split; [exact Hp|]. apply String.eqb_eq. exact Hclerk.
    + apply existsb_exists. exists q. split; [exact Hq|]. apply String.eqb_eq. exact Hprop.
  - reflexivity.
  - reflexivity.
  - reflexivity.
  - apply filter_pair_fresh; [exact Hnone|reflexivity|reflexivity].
  - apply (toggle_delete_run w1 user).
    + apply (getAuthUser_same w); [reflexivity|reflexivity|exact Hauth].
    + apply uuid_not_empty.
    + simpl. rewrite map_app. apply in_or_app. right. left. reflexivity.
  - exact Hkept.
  - unfold favorites_of_pair. rewrite Hkept. exact Hnone.
Qed.
Lemma filter_length_le {A} (f g : A -> bool) (l : list A) :
  length (List.filter f (List.filter g l)) <= length (List.filter f l).
Proof.
  induction l as [|x l IH]; simpl; [lia|].
  destruct (g x), (f x) eqn:Hf; simpl; rewrite ?Hf; simpl; lia.
Qed.

Lemma find_none_filter {A} (f : A -> bool) (l : list A) :
  List.find f l = None -> List.filter f l = [].
Proof.
  induction l as [|x l IH]; simpl; [reflexivity|].
  destruct (f x); [discriminate|exact IH].
Qed.

Lemma sync_step_invariant (w w1 : World) (user : User) (property path : string)
      (fid : option string) (r : outcome Message) :
  getAuthUser w = (Ok user, w) ->
  ids_not_empty w ->
  at_most_one_favorite (user_id user) property w ->
  fetchFavoriteId property w = (Ok fid, w) ->
  toggleFavoriteAction (mkToggleState property fid path) w = (r, w1) ->
  getAuthUser w1 = (Ok user, w1) /\ ids_not_empty w1 /\
  at_most_one_favorite (user_id user) property w1.
Proof.
  intros Hauth Hids Hone Hfetch Htoggle.
  unfold fetchFavoriteId in Hfetch. rewrite (run_from _ _ _ _ _ Hauth) in Hfetch.
  unfold bind, db_favorite_findFirst, ret in Hfetch.
  destruct (List.find (favorite_of (user_id user) property) (favorites (db w)))
    as [f|] eqn:Hfind; cbn [option_map] in Hfetch.
  - apply find_some in Hfind as [Hin _].
    assert (Hid : Favorite.id f <> "").
    { unfold ids_not_empty in Hids. rewrite List.Forall_forall in Hids. apply Hids, Hin. }
    assert (Htruthy : truthy (Some (Favorite.id f)) = true).
    { simpl. apply negb_true_iff, String.eqb_neq, Hid. }
    rewrite Htruthy in Hfetch. injection Hfetch as <-.
    rewrite (toggle_delete_run w user) in Htoggle;
      [|exact Hauth|exact Hid|apply in_map; exact Hin].
    injection Htoggle as _ <-. split; [|split].
    + apply (getAuthUser_same w); [reflexivity|reflexivity|exact Hauth].
    + unfold ids_not_empty in *. simpl. rewrite List.Forall_forall in *.
      intros g Hg. apply filter_In in Hg as [Hg _]. apply Hids, Hg.
    + unfold at_most_one_favorite, favorites_of_pair in *. simpl.
      etransitivity; [apply filter_length_le|exact Hone].
  - assert (Hfid : fid = None).
    { simpl in Hfetch. congruence. }
    subst fid. clear Hfetch. apply find_none_filter in Hfind.
    unfold toggleFavoriteAction in Htoggle.
    rewrite (run_from _ _ _ _ _ Hauth) in Htoggle.
    cbn [favoriteId propertyId pathname truthy] in Htoggle.
    unfold try_catch, bind, db_favorite_create in Htoggle.
    destruct (existsb _ (profiles (db w))); cbn [negb] in Htoggle;
      [destruct (existsb _ (properties (db w))); cbn [negb] in Htoggle|];
      injection Htoggle as _ <-.
    + split; [|split].
      * apply (getAuthUser_same w); [reflexivity|reflexivity|exact Hauth].
      * unfold ids_not_empty in *. simpl. apply List.Forall_app. split; [exact Hids|].
        constructor; [apply uuid_not_empty|constructor].
      * unfold at_most_one_favorite, favorites_of_pair in *. simpl.
        rewrite List.filter_app, Hfind. simpl.
        destruct (favorite_of _ _ _); simpl; lia.
    + split; [exact Hauth|split; [exact Hids|exact Hone]].
    + split; [exact Hauth|split; [exact Hids|exact Hone]].
Qed.

(** C2, as the code has it: neither the store nor the toggle keeps a pair
    of profile and property to one row, since a toggle without a favorite
    id adds a row to whatever the pair has already.  What keeps the pair to
    at most one row is the caller: along every run of toggles by one
    identity on one property in which each call is given the id that
    [fetchFavoriteId] answers at that moment, a pair that starts with at
    most one row never has more than one. *)
Theorem favorite_pair_unique_in_sync :
  (forall (w w' : World) (user : User) (property : string),
     getAuthUser w = (Ok user, w) ->
     ids_not_empty w ->
     at_most_one_favorite (user_id user) property w ->
     toggles_in_sync property w w' ->
     at_most_one_favorite (user_id user) property w') /\
  (forall (w : World) (user : User) (fid : option string) (property path : string),
     getAuthUser w = (Ok user, w) ->
     truthy fid = false ->
     (exists p, In p (profiles (db w)) /\ Profile.clerkId p = user_id user) ->
     (exists p, In p (properties (db w)) /\ Property.id p = property) ->
     length (favorites_of_pair (user_id user) property
               (snd (toggleFavoriteAction (mkToggleState property fid path) w)))
     = S (length (favorites_of_pair (user_id user) property w))).
Proof.
  split.
  - intros w w' user property Hauth Hids Hone Hrun.
    induction Hrun as [w|w w1 w2 fid path r Hfetch Htoggle Hrun IH].
    + exact Hone.
    + destruct (sync_step_invariant _ _ _ _ _ _ _ Hauth Hids Hone Hfetch Htoggle)
        as (Hauth1 & Hids1 & Hone1).
      apply IH; assumption.
  - intros w user fid property path Hauth Hfalsy (p & Hp & Hclerk) (q & Hq & Hprop).
    rewrite (toggle_create_run w user); [|exact Hauth|exact Hfalsy| |].
    + unfold favorites_of_pair. simpl. rewrite List.filter_app, length_app. simpl.
      unfold favorite_of at 2. simpl. rewrite !String.eqb_refl. simpl. lia.
    + apply existsb_exists. exists p. split; [exact Hp|]. apply String.eqb_eq. exact Hclerk.
    + apply existsb_exists. exists q. split; [exact Hq|]. apply String.eqb_eq. exact Hprop.
Qed.

(** ** Image validation *)

Lemma imageSchema_rejects (f : File) :
  (maxUploadSize < file_size f)%N \/ acceptedFileType (file_type f) = false ->
  exists msg, imageSchema (Some (EntryFile f)) = inl msg.
Proof.
  intros Hbad. unfold imageSchema.
  destruct (N.ltb_spec maxUploadSize (file_size f)); [eexists; reflexivity|].
  destruct Hbad as [Hbig|Htype]; [lia|]. rewrite Htype. eexists. reflexivity.
Qed.


(** C6: when the [image] entry of the form is a file above the size ceiling
    or of a type that is not allowed, updating the profile image and
    creating a property make no call to the object storage and write
    nothing to the store: the world stays as it was.  For a resolved
    identity the answer is the message of the validation that failed. *)
Theorem invalid_image_stops_before_upload (formData : FormData) (f : File) (w : World) :
  formData_get "image" formData = Some (EntryFile f) ->
  (maxUploadSize < file_size f)%N \/ acceptedFileType (file_type f) = false ->
  (uploads (snd (updateProfileImageAction formData w)) = uploads w /\
   db (snd (updateProfileImageAction formData w)) = db w /\
   uploads (snd (createPropertyAction formData w)) = uploads w /\
   db (snd (createPropertyAction formData w)) = db w) /\
  (forall user, getAuthUser w = (Ok user, w) ->
     (exists msg,
        imageSchema (formData_get "image" formData) = inl msg /\
        updateProfileImageAction formData w = (Ok (renderError (JsError msg)), w)) /\
     (exists msg,
        (propertySchema (fromEntries formData) = inl msg \/
         imageSchema (formData_get "image" formData) = inl msg) /\
        createPropertyAction formData w = (Ok (renderError (JsError msg)), w))).
Proof.
  intros Hget Hbad. destruct (imageSchema_rejects f Hbad) as [msg Hmsg].
  rewrite <- Hget in Hmsg.
  assert (Himage : forall user,
            getAuthUser w = (Ok user, w) ->
            updateProfileImageAction formData w = (Ok (renderError (JsError msg)), w)).
  { intros user Hauth. unfold updateProfileImageAction.
    rewrite (run_from _ _ _ _ _ Hauth).
    unfold try_catch, bind, validateWithZodSchema. rewrite Hmsg. reflexivity. }
  assert (Hproperty : forall user,
            getAuthUser w = (Ok user, w) ->
            exists msg',
              (propertySchema (fromEntries formData) = inl msg' \/
               imageSchema (formData_get "image" formData) = inl msg') /\
              createPropertyAction formData w = (Ok (renderError (JsError msg')), w)).
  { intros user Hauth. unfold createPropertyAction.
    rewrite (run_from _ _ _ _ _ Hauth).
    unfold try_catch, bind, validateWithZodSchema.
    destruct (propertySchema (fromEntries formData)) as [msg'|fields] eqn:Hfields.
    - exists msg'. split; [left; reflexivity|reflexivity].
    - exists msg. split; [right; exact Hmsg|]. simpl. rewrite Hmsg. reflexivity. }
  split.
  - destruct (getAuthUser_cases w) as [[_ Hg]|[(u & _ & _ & Hg)|(u & _ & _ & Hg)]].
    + unfold updateProfileImageAction, createPropertyAction.
      rewrite !(run_thrown _ _ _ _ _ Hg). repeat split; reflexivity.
    + unfold updateProfileImageAction, createPropertyAction.
      rewrite !(run_thrown _ _ _ _ _ Hg). repeat split; reflexivity.
    + rewrite (Himage u Hg). destruct (Hproperty u Hg) as (msg' & _ & ->).
      repeat split; reflexivity.
  - intros user Hauth. split.
    + exists msg. split; [exact Hmsg|exact (Himage user Hauth)].
    + exact (Hproperty user Hauth).
Qed.

(** ** Creating the profile *)

(** C7: when the signed-in identity has an email address and no profile
    row, and the form passes the profile schema, creating the profile adds
    one row to [Profile] with the identity's id as [clerkId], sets the
    identity's [hasProfile] flag at the provider, and redirects to the home
    view.  Without a signed-in identity it answers with the message of the
    login error and changes nothing. *)
Theorem createProfile_onboards (formData : FormData) (w : World) :
  (forall (user : User) (fields : ProfileFields) (address : string)
          (others : list string),
     fst (currentUser w) = Ok (Some user) ->
     profileSchema (fromEntries formData) = inr fields ->
     emailAddresses user = address :: others ->
     (forall p, In p (profiles (db w)) -> Profile.clerkId p <> user_id user) ->
     exists (row : Profile.t) (w' : World),
       createProfileAction formData w = (Thrown (NextRedirect "/"), w') /\
       profiles (db w') = (profiles (db w) ++ [row])%list /\
       Profile.clerkId row = user_id user /\
       Profile.email row = address /\
       Profile.firstName row = pf_firstName fields /\
       Profile.lastName row = pf_lastName fields /\
       Profile.username row = pf_username fields /\
       fst (currentUser w')
       = Ok (Some (mkUser (user_id user) (emailAddresses user) (imageUrl user) true))) /\
  (fst (currentUser w) = Ok None ->
   createProfileAction formData w
   = (Ok (renderError (JsError "Please login to create a profile")), w)).
Proof.
  split.
  - intros user fields address others Huser Hvalid Hmail Hnew.
    assert (Hfree : existsb (fun p => String.eqb (Profile.clerkId p) (user_id user))
                            (profiles (db w)) = false).
    { apply not_true_is_false. intros Hex. apply existsb_exists in Hex as (p & Hp & Heq).
      apply String.eqb_eq in Heq. exact (Hnew p Hp Heq). }
    unfold currentUser in Huser. simpl in Huser.
    destruct (session w) as [sid|] eqn:Hsid; [|discriminate].
    destruct (identities w !! sid) as [i|] eqn:Hi; [|discriminate].
    injection Huser as <-. simpl in Hmail, Hfree, Hnew.
    unfold createProfileAction, try_catch, bind, currentUser, validateWithZodSchema,
      first_emailAddress, db_profile_create, updateUserMetadata_hasProfile.
    rewrite Hsid, Hi, Hvalid. cbn [ret user_id emailAddresses imageUrl].
    rewrite Hmail. cbn [ret]. rewrite Hfree. cbn [commit identities]. rewrite Hi.
    cbn [ret redirect throw]. eexists. eexists. split; [reflexivity|].
    unfold commit. cbn [db profiles session identities fst].
    rewrite Hsid, lookup_insert_eq.
    cbn. rewrite Hmail.
    repeat split; reflexivity.
  - intros Hnone. unfold createProfileAction, try_catch.
    unfold bind at 1. rewrite (run_currentUser _ _ _ Hnone). reflexivity.
Qed.

(** ** What gets out of an action *)



End Properties.

(** ** The statements at the sample configuration *)

Lemma CountryFlagAndName_truncates_witness :
  exists shown,
    @CountryFlagAndName Sample.collaborators "BA"
    = Ok (mkFlagAndName (Some "BA") shown) /\
    exists first rest,
      "Bosnia and Herzegovina" = first +:+ rest /\ String.length first = 20 /\
      shown = first +:+ "...".
Proof.
  destruct (@CountryFlagAndName_truncates Sample.collaborators "BA"
              (mkCountry "BA" "Bosnia and Herzegovina") eq_refl)
    as (_ & _ & shown & Hrun & Hlong & _).
  exists shown. split; [exact Hrun|]. apply Hlong. vm_compute. lia.
Defined.

Lemma CountryFlagAndName_unknown_code_throws_witness :
  @CountryFlagAndName Sample.collaborators "XX" = Thrown (JsTypeError "name").
Proof.
  apply (proj1 (@CountryFlagAndName_unknown_code_throws Sample.collaborators "XX")).
  intros c Hin. simpl in Hin.
  repeat (destruct Hin as [<-|Hin]; [discriminate|]). destruct Hin.
Defined.

(** Two toggles without a favorite id, by one identity on one property,
    leave two rows for the pair. *)
Lemma toggleFavorite_twice_without_id_duplicates :
  let st := mkToggleState "h1" None "/" in
  let w1 := snd (@toggleFavoriteAction Sample.collaborators st Sample.world) in
  let w2 := snd (@toggleFavoriteAction Sample.collaborators st w1) in
  fst (getAuthUser Sample.world) = Ok (mkUser "user_ann" ["ann@example.com"] None true) /\
  favorites_of_pair "user_ann" "h1" Sample.world = [] /\
  length (favorites_of_pair "user_ann" "h1" w2) = 2 /\
  ~ at_most_one_favorite "user_ann" "h1" w2.
Proof.
  split; [reflexivity|]. split; [reflexivity|]. split; [reflexivity|].
  unfold at_most_one_favorite. vm_compute. lia.
Qed.

Lemma toggleFavorite_in_sync_witness :
  let w1 := snd (@toggleFavoriteAction Sample.collaborators
                   (mkToggleState "h1" None "/") Sample.world) in
  let w2 := snd (@toggleFavoriteAction Sample.collaborators
                   (mkToggleState "h1" (Some "uf1") "/") w1) in
  at_most_one_favorite "user_ann" "h1" w2.
Proof.
  cbv zeta.
  refine (proj1 (@favorite_pair_unique_in_sync Sample.collaborators)
                Sample.world _ Sample.ann_user "h1" _ _ _ _).
  - reflexivity.
  - repeat constructor. discriminate.
  - unfold at_most_one_favorite. vm_compute. lia.
  - eapply (sync_toggle "h1" Sample.world _ _ None "/"); [reflexivity|reflexivity|].
    eapply (sync_toggle "h1" _ _ _ (Some "uf1") "/"); [reflexivity|reflexivity|].
    apply sync_none.
Defined.

Lemma toggleFavorite_round_trip_witness :
  exists (row : Favorite.t) (w1 w2 : World),
    @toggleFavoriteAction Sample.collaborators (mkToggleState "h1" None "/") Sample.world
    = (Ok (mkMessage "Added to Faves"), w1) /\
    favorites_of_pair "user_ann" "h1" w1 = [row] /\
    @toggleFavoriteAction Sample.collaborators
      (mkToggleState "h1" (Some (Favorite.id row)) "/") w1
    = (Ok (mkMessage "Removed from Faves"), w2) /\
    favorites (db w2) = [Sample.bob_likes_cabin] /\
    favorites_of_pair "user_ann" "h1" w2 = [].
Proof.
  destruct (@toggleFavorite_round_trip Sample.collaborators Sample.world
              Sample.ann_user "h1" "/")
    as (row & w1 & w2 & Hadd & _ & _ & _ & Hone & Hdel & Hsame & Hnone).
  - reflexivity.
  - exists Sample.ann_profile. split; [left; reflexivity|reflexivity].
  - exists Sample.cabin. split; [left; reflexivity|reflexivity].
  - reflexivity.
  - exists row, w1, w2. repeat split; assumption.
Defined.

Lemma toggleFavorite_deletes_by_id_alone_witness :
  Favorite.profileId Sample.bob_likes_cabin = "user_bob" /\
  exists w',
    @toggleFavoriteAction Sample.collaborators
      (mkToggleState "h2" (Some "f1") "/") Sample.world
    = (Ok (mkMessage "Removed from Faves"), w') /\
    ~ In Sample.bob_likes_cabin (favorites (db w')).
Proof.
  split; [reflexivity|].
  destruct (@toggleFavorite_deletes_by_id_alone Sample.collaborators Sample.world
              Sample.ann_user Sample.bob_likes_cabin "h2" "/")
    as (w' & Hrun & _ & Hgone).
  - reflexivity.
  - left. reflexivity.
  - discriminate.
  - exists w'. split; assumption.
Defined.

Lemma fetchProperties_matches_pattern_witness :
  exists cards,
    @fetchProperties Sample.locale (Some "pool") None Sample.anonymous
    = (Ok cards, Sample.anonymous) /\
    forall card, In card cards ->
      exists p, In p [Sample.cabin; Sample.tent] /\ card = select_card p /\
                (@occurs_insensitive Sample.locale "pool" (Property.name p) \/
                 @occurs_insensitive Sample.locale "pool" (Property.tagline p)).
Proof.
  destruct (@fetchProperties_matches_pattern Sample.locale (Some "pool") None
              Sample.anonymous)
    as (pattern & cards & _ & Hrun & _ & Hhit & _).
  exists cards. split; [exact Hrun|].
  intros card Hin. destruct (Hhit eq_refl card Hin) as (p & Hp & Hcard & _ & Hocc).
  exists p. split; [exact Hp|]. split; [exact Hcard|exact Hocc].
Defined.

(** The search string [_] returns both sample rows, and neither has an
    underscore in its name or tagline. *)
Lemma fetchProperties_underscore_matches_any_character :
  fst (@fetchProperties Sample.locale (Some "_") None Sample.anonymous)
  = Ok [select_card Sample.cabin; select_card Sample.tent] /\
  ~ @occurs_insensitive Sample.locale "_" (Property.name Sample.cabin) /\
  ~ @occurs_insensitive Sample.locale "_" (Property.tagline Sample.cabin) /\
  ~ @occurs_insensitive Sample.locale "_" (Property.name Sample.tent) /\
  ~ @occurs_insensitive Sample.locale "_" (Property.tagline Sample.tent).
Proof.
  split; [reflexivity|].
  repeat split; intros (before & after & Hocc);
    pose proof (occurs_substringb (@lower Sample.locale "_") before after) as Hsub;
    rewrite <- Hocc in Hsub; vm_compute in Hsub; discriminate.
Qed.

(** Without an identity [fetchProfileImage] answers [null] where an
    authorization error was claimed, and for an identity without a profile
    row it answers [undefined] where a redirect was claimed. *)
Lemma fetchProfileImage_neither_fails_nor_redirects :
  fst (currentUser Sample.anonymous) = Ok None /\
  fetchProfileImage Sample.anonymous = (Ok JsNull, Sample.anonymous) /\
  fst (currentUser Sample.newcomer) = Ok (Some Sample.cat_user) /\
  fst (db_profile_findUnique "user_cat" Sample.newcomer) = Ok None /\
  fetchProfileImage Sample.newcomer = (Ok JsUndefined, Sample.newcomer).
Proof. repeat split; reflexivity. Qed.

Lemma fetchProfile_and_image_read_witness :
  fetchProfile Sample.anonymous
  = (Thrown (JsError "You must be logged in to access this route"), Sample.anonymous) /\
  fetchProfileImage Sample.anonymous = (Ok JsNull, Sample.anonymous).
Proof.
  apply (proj1 (fetchProfile_and_image_read Sample.anonymous)). reflexivity.
Defined.

Lemma invalid_image_stops_before_upload_witness :
  let formData := Sample.listing_form Sample.big_file in
  uploads (snd (@updateProfileImageAction Sample.collaborators formData Sample.world)) = [] /\
  db (snd (@createPropertyAction Sample.collaborators formData Sample.world)) = Sample.tables /\
  exists msg,
    @updateProfileImageAction Sample.collaborators formData Sample.world
    = (Ok (@renderError Sample.collaborators (JsError msg)), Sample.world).
Proof.
  cbv zeta.
  destruct (@invalid_image_stops_before_upload Sample.collaborators
              (Sample.listing_form Sample.big_file) Sample.big_file Sample.world)
    as [(Hup & _ & _ & Hdb) Hmsg].
  - reflexivity.
  - left. reflexivity.
  - split; [exact Hup|]. split; [exact Hdb|].
    destruct (Hmsg Sample.ann_user eq_refl) as [(msg & _ & Hrun) _].
    exists msg. exact Hrun.
Defined.

Lemma createProfile_onboards_witness :
  exists (row : Profile.t) (w' : World),
    @createProfileAction Sample.collaborators Sample.profile_form Sample.newcomer
    = (Thrown (NextRedirect "/"), w') /\
    profiles (db w') = [Sample.ann_profile; Sample.bob_profile; row] /\
    Profile.clerkId row = "user_cat" /\
    fst (currentUser w')
    = Ok (Some (mkUser "user_cat" ["cat@example.com"] None true)).
Proof.
  destruct (proj1 (@createProfile_onboards Sample.collaborators Sample.profile_form
                     Sample.newcomer)
              Sample.cat_user (mkProfileFields "Cat" "Fox" "cat")
              "cat@example.com" [])
    as (row & w' & Hrun & Hrows & Hkey & _ & _ & _ & _ & Hflag).
  - reflexivity.
  - reflexivity.
  - reflexivity.
  - intros p [<-|[<-|[]]]; discriminate.
  - exists row, w'. repeat split; assumption.
Defined.



(** * More of the actions *)

Section Coverage.

Context `{Collaborators}.
Context {locale : Locale}.

(** ** Keeping a property of the world *)

Lemma preserves_ret {A} (P : World -> Prop) (a : A) : preserves P (ret a).
Proof. intros w HP. exact HP. Qed.

Lemma preserves_throw {A} (P : World -> Prop) (t : thrown) : preserves P (@throw A t).
Proof. intros w HP. exact HP. Qed.

Lemma preserves_bind {A B} (P : World -> Prop) (m : Action A) (k : A -> Action B) :
  preserves P m -> (forall a, preserves P (k a)) -> preserves P (bind m k).
Proof.
  intros Hm Hk w HP. unfold bind. specialize (Hm w HP).
  destruct (m w) as [[a|t] w']; simpl in Hm; [apply Hk; exact Hm|exact Hm].
Qed.

Lemma preserves_try_catch {A} (P : World -> Prop) (body : Action A)
      (handler : thrown -> Action A) :
  preserves P body -> (forall t, preserves P (handler t)) ->
  preserves P (try_catch body handler).
Proof.
  intros Hb Hh w HP. unfold try_catch. specialize (Hb w HP).
  destruct (body w) as [[a|t] w']; simpl in Hb; [exact Hb|apply Hh; exact Hb].
Qed.

Lemma preserves_read {A} (P : World -> Prop) (m : Action A) :
  (forall w, snd (m w) = w) -> preserves P m.
Proof. intros Hm w HP. rewrite Hm. exact HP. Qed.

Lemma validate_read {I T} (schema : I -> string + T) (data : I) (w : World) :
  snd (validateWithZodSchema schema data w) = w.
Proof. unfold validateWithZodSchema. destruct (schema data); reflexivity. Qed.

Lemma first_emailAddress_read (user : User) (w : World) :
  snd (first_emailAddress user w) = w.
Proof. unfold first_emailAddress. destruct (emailAddresses user); reflexivity. Qed.

Lemma after_getAuthUser_thrown {B} (k : User -> Action B) (w : World) (t : thrown) :
  fst (getAuthUser w) = Thrown t -> bind getAuthUser k w = (Thrown t, w).
Proof.
  intros Ht. pose proof (getAuthUser_world w) as Hw. unfold bind.
  destruct (getAuthUser w) as [[user|t0] w0]; simpl in *; [discriminate|].
  congruence.
Qed.

(** X1: when the identity-resolution step does not give a user, every
    operation that starts with it ends in what that step threw, the
    authorization error or the onboarding redirect, and has changed nothing:
    no validation, upload or write comes before the identity is resolved. *)
Theorem unresolved_identity_changes_nothing (w : World) (t : thrown) :
  fst (getAuthUser w) = Thrown t ->
  fetchProfile w = (Thrown t, w) /\
  (forall formData, updateProfileAction formData w = (Thrown t, w)) /\
  (forall formData, updateProfileImageAction formData w = (Thrown t, w)) /\
  (forall formData, createPropertyAction formData w = (Thrown t, w)) /\
  (forall property, fetchFavoriteId property w = (Thrown t, w)) /\
  (forall prevState, toggleFavoriteAction prevState w = (Thrown t, w)) /\
  fetchFavorites w = (Thrown t, w).
Proof.
  intros Ht. repeat split; intros;
    first [ apply (after_getAuthUser_thrown _ _ _ Ht) ].
Qed.

Lemma preserves_field {A X} (f : World -> X) (x : X) (m : Action A) :
  (forall w, f (snd (m w)) = f w) -> preserves (fun w' => f w' = x) m.
Proof. intros Hm w HP. rewrite Hm. exact HP. Qed.

(** A step of the store, of the storage or of the provider, case by case. *)
Ltac step_cases :=
  intros ?;
  unfold db_profile_create, db_profile_update, db_property_create,
    db_favorite_delete, db_favorite_create, uploadImage, revalidatePath,
    updateUserMetadata_hasProfile, commit;
  repeat match goal with
         | |- context [if ?c then _ else _] => destruct c
         | |- context [match ?x with _ => _ end] => destruct x
         end;
  reflexivity.

Ltac frame_steps :=
  repeat first
    [ apply preserves_bind; [|intros ?]
    | apply preserves_try_catch; [|intros ?]
    | apply preserves_ret
    | apply preserves_throw
    | apply preserves_read; intros ?; first
        [ apply getAuthUser_world | apply currentUser_pure
        | apply validate_read | apply first_emailAddress_read | reflexivity ]
    | match goal with
      | |- preserves _ (match ?x with _ => _ end) => destruct x
      | |- preserves _ (if ?x then _ else _) => destruct x
      end
    | apply preserves_field; step_cases ].

Ltac frame_by F :=
  match goal with
  | |- context [snd (?m ?w)] =>
      change (F (snd (m w)) = F w);
      apply (fun Hm : preserves (fun w' => F w' = F w) m => Hm w eq_refl);
      unfold createProfileAction, updateProfileAction, updateProfileImageAction,
        createPropertyAction, toggleFavoriteAction, redirect;
      frame_steps
  end.

Ltac frame :=
  first [ frame_by session | frame_by identities | frame_by uploads
        | frame_by revalidated
        | frame_by (fun w => profiles (db w))
        | frame_by (fun w => properties (db w))
        | frame_by (fun w => favorites (db w)) ].

(** X2: what each writing action leaves alone, however it ends.  None
    changes the session; only creating a profile changes the identity
    provider's record; updating a profile touches no property and no
    favorite, creating a property no profile and no favorite, a toggle no
    profile and no property; only the two actions with an image call the
    object storage. *)
Theorem actions_write_only_their_own (w : World) :
  (forall formData,
     let w' := snd (createProfileAction formData w) in
     session w' = session w /\ properties (db w') = properties (db w) /\
     favorites (db w') = favorites (db w) /\ uploads w' = uploads w /\
     revalidated w' = revalidated w) /\
  (forall formData,
     let w' := snd (updateProfileAction formData w) in
     session w' = session w /\ identities w' = identities w /\
     properties (db w') = properties (db w) /\
     favorites (db w') = favorites (db w) /\ uploads w' = uploads w) /\
  (forall formData,
     let w' := snd (updateProfileImageAction formData w) in
     session w' = session w /\ identities w' = identities w /\
     properties (db w') = properties (db w) /\
     favorites (db w') = favorites (db w)) /\
  (forall formData,
     let w' := snd (createPropertyAction formData w) in
     session w' = session w /\ identities w' = identities w /\
     profiles (db w') = profiles (db w) /\
     favorites (db w') = favorites (db w) /\ revalidated w' = revalidated w) /\
  (forall prevState,
     let w' := snd (toggleFavoriteAction prevState w) in
     session w' = session w /\ identities w' = identities w /\
     profiles (db w') = profiles (db w) /\
     properties (db w') = properties (db w) /\ uploads w' = uploads w).
Proof.
  split; [|split; [|split; [|split]]]; intros x; cbv zeta; repeat split; frame.
Qed.

(** ** The schema's promises are kept *)

Lemma NoDup_snoc {A} (l : list A) (x : A) :
  List.NoDup l -> ~ In x l -> List.NoDup (l ++ [x]).
Proof.
  induction l as [|y l IH]; simpl; intros Hl Hx.
  - constructor; [tauto|constructor].
  - inversion Hl as [|? ? Hy Hl']; subst. constructor.
    + rewrite in_app_iff. simpl. intros [Hin|[->|[]]]; tauto.
    + apply IH; tauto.
Qed.

Lemma NoDup_map_filter {A B} (f : A -> B) (g : A -> bool) (l : list A) :
  List.NoDup (map f l) -> List.NoDup (map f (List.filter g l)).
Proof.
  induction l as [|y l IH]; simpl; intros Hl; [constructor|].
  inversion Hl as [|? ? Hy Hl']; subst.
  destruct (g y); simpl; [constructor|]; try (apply IH; exact Hl').
  intros Hin. apply Hy. apply in_map_iff in Hin as (z & Hz & Hin).
  apply filter_In in Hin as [Hin _]. apply in_map_iff. exists z. tauto.
Qed.

Lemma existsb_in_map {A} (key : A -> string) (k : string) (l : list A) :
  existsb (fun x => String.eqb (key x) k) l = true <-> In k (map key l).
Proof.
  rewrite existsb_exists, in_map_iff. split; intros (x & Ha & Hb).
  - exists x. apply String.eqb_eq in Hb. tauto.
  - exists x. split; [exact Hb|]. apply String.eqb_eq. exact Ha.
Qed.

Ltac wf_split := split; [|split; [|split; [|split; [|split; [|split]]]]].

Lemma wf_profile_create (clerkId email image : string) (v : ProfileFields) :
  preserves (fun w => db_wf (db w)) (db_profile_create clerkId email image v).
Proof.
  intros w Hwf. pose proof Hwf as (Hp & Hc & Hq & Hf & He & Hfk1 & Hfk2).
  unfold db_profile_create.
  destruct (existsb _ (profiles (db w))) eqn:Hex; simpl; [exact Hwf|].
  wf_split; simpl; try assumption.
  - rewrite map_app. apply NoDup_snoc; [exact Hp|apply uuid_fresh].
  - rewrite map_app. apply NoDup_snoc; [exact Hc|].
    intros Hin.
    apply (proj2 (existsb_in_map Profile.clerkId clerkId (profiles (db w)))) in Hin.
    rewrite Hin in Hex. discriminate.
  - intros p Hin. rewrite map_app, in_app_iff. left. apply Hfk1. exact Hin.
  - intros f Hin. rewrite map_app, in_app_iff. split; [left|]; apply (Hfk2 f Hin).
Qed.

Lemma wf_profile_update (clerkId : string) (data : Profile.t -> Profile.t) :
  (forall p, Profile.id (data p) = Profile.id p /\
             Profile.clerkId (data p) = Profile.clerkId p) ->
  preserves (fun w => db_wf (db w)) (db_profile_update clerkId data).
Proof.
  intros Hdata w Hwf. pose proof Hwf as (Hp & Hc & Hq & Hf & He & Hfk1 & Hfk2).
  unfold db_profile_update.
  destruct (List.find _ (profiles (db w))) as [p|] eqn:Hfind; simpl; [|exact Hwf].
  assert (Hid : forall l : list Profile.t,
            map Profile.id
                (map (fun q => if String.eqb (Profile.clerkId q) clerkId
                               then touch (clock w) (data q) else q) l)
            = map Profile.id l).
  { intros l. rewrite map_map. apply map_ext. intros q.
    destruct (String.eqb (Profile.clerkId q) clerkId); [|reflexivity].
    simpl. apply Hdata. }
  assert (Hck : forall l : list Profile.t,
            map Profile.clerkId
                (map (fun q => if String.eqb (Profile.clerkId q) clerkId
                               then touch (clock w) (data q) else q) l)
            = map Profile.clerkId l).
  { intros l. rewrite map_map. apply map_ext. intros q.
    destruct (String.eqb (Profile.clerkId q) clerkId); [|reflexivity].
    simpl. apply Hdata. }
  wf_split; simpl; try assumption.
  - rewrite Hid. exact Hp.
  - rewrite Hck. exact Hc.
  - intros q Hin. rewrite Hck. apply Hfk1. exact Hin.
  - intros f Hin. rewrite Hck. apply (Hfk2 f Hin).
Qed.

Lemma wf_property_create (v : PropertyFields) (image profileId : string) :
  preserves (fun w => db_wf (db w)) (db_property_create v image profileId).
Proof.
  intros w Hwf. pose proof Hwf as (Hp & Hc & Hq & Hf & He & Hfk1 & Hfk2).
  unfold db_property_create.
  destruct (ints_fit v); cbn [negb]; [|exact Hwf].
  destruct (existsb _ (profiles (db w))) eqn:Hex; simpl; [|exact Hwf].
  wf_split; simpl; try assumption.
  - rewrite map_app. apply NoDup_snoc; [exact Hq|apply uuid_fresh].
  - intros p Hin. apply in_app_iff in Hin as [Hin|[<-|[]]].
    + apply Hfk1. exact Hin.
    + simpl. apply existsb_in_map. exact Hex.
  - intros f Hin. rewrite map_app, in_app_iff. split; [|left]; apply (Hfk2 f Hin).
Qed.

Lemma wf_favorite_delete (id : string) :
  preserves (fun w => db_wf (db w)) (db_favorite_delete id).
Proof.
  intros w Hwf. pose proof Hwf as (Hp & Hc & Hq & Hf & He & Hfk1 & Hfk2).
  unfold db_favorite_delete.
  destruct (existsb _ (favorites (db w))); simpl; [|exact Hwf].
  wf_split; simpl; try assumption.
  - apply NoDup_map_filter. exact Hf.
  - rewrite List.Forall_forall in *. intros f Hin.
    apply filter_In in Hin as [Hin _]. apply He. exact Hin.
  - intros f Hin. apply filter_In in Hin as [Hin _]. apply (Hfk2 f Hin).
Qed.

Lemma wf_favorite_create (propertyId profileId : string) :
  preserves (fun w => db_wf (db w)) (db_favorite_create propertyId profileId).
Proof.
  intros w Hwf. pose proof Hwf as (Hp & Hc & Hq & Hf & He & Hfk1 & Hfk2).
  unfold db_favorite_create.
  destruct (existsb _ (profiles (db w))) eqn:Hex1; simpl; [|exact Hwf].
  destruct (existsb _ (properties (db w))) eqn:Hex2; simpl; [|exact Hwf].
  wf_split; simpl; try assumption.
  - rewrite map_app. apply NoDup_snoc; [exact Hf|apply uuid_fresh].
  - apply List.Forall_app. split; [exact He|].
    constructor; [apply uuid_not_empty|constructor].
  - intros f Hin. apply in_app_iff in Hin as [Hin|[<-|[]]].
    + apply (Hfk2 f Hin).
    + simpl. split; apply existsb_in_map; assumption.
Qed.

Lemma wf_same_db {A} (m : Action A) :
  (forall w, db (snd (m w)) = db w) -> preserves (fun w => db_wf (db w)) m.
Proof. intros Hm w HP. rewrite Hm. exact HP. Qed.

Ltac wf_steps :=
  repeat first
    [ apply preserves_bind; [|intros ?]
    | apply preserves_try_catch; [|intros ?]
    | apply preserves_ret
    | apply preserves_throw
    | apply preserves_read; intros ?; first
        [ apply getAuthUser_world | apply currentUser_pure
        | apply validate_read | apply first_emailAddress_read | reflexivity ]
    | match goal with
      | |- preserves _ (match ?x with _ => _ end) => destruct x
      | |- preserves _ (if ?x then _ else _) => destruct x
      end
    | apply wf_profile_create
    | apply wf_profile_update; intros ?; split; reflexivity
    | apply wf_property_create
    | apply wf_favorite_delete
    | apply wf_favorite_create
    | apply wf_same_db; intros ?;
      unfold uploadImage, revalidatePath, updateUserMetadata_hasProfile;
      repeat match goal with
             | |- context [match ?x with _ => _ end] => destruct x
             end;
      reflexivity ].

(** X3: the five writing actions keep what the schema declares: ids and
    [clerkId]s stay unique, ids of favorites stay non-empty, and every
    reference of a property or favorite still points at a stored row,
    whatever the form or state given and however the action ends. *)
Theorem actions_keep_the_schema (w : World) :
  db_wf (db w) ->
  (forall formData, db_wf (db (snd (createProfileAction formData w)))) /\
  (forall formData, db_wf (db (snd (updateProfileAction formData w)))) /\
  (forall formData, db_wf (db (snd (updateProfileImageAction formData w)))) /\
  (forall formData, db_wf (db (snd (createPropertyAction formData w)))) /\
  (forall prevState, db_wf (db (snd (toggleFavoriteAction prevState w)))).
Proof.
  intros Hwf.
  split; [|split; [|split; [|split]]]; intros x;
    match goal with
    | |- db_wf (db (snd (?m w))) =>
        apply (fun Hm : preserves (fun w' => db_wf (db w')) m => Hm w Hwf)
    end;
    unfold createProfileAction, updateProfileAction, updateProfileImageAction,
      createPropertyAction, toggleFavoriteAction, redirect;
    wf_steps.
Qed.

(** ** Reading the favorites *)

Lemma find_head_filter {A} (f : A -> bool) (l : list A) :
  List.find f l = List.head (List.filter f l).
Proof.
  induction l as [|x l IH]; simpl; [reflexivity|].
  destruct (f x); [reflexivity|exact IH].
Qed.

(** X13: for a resolved identity [fetchFavoriteId] reads without changing
    anything and answers the id of the first favorite row of the identity
    for the property; it answers [null] exactly when there is no such
    row. *)
Theorem fetchFavoriteId_first_of_pair (w : World) (user : User) (property : string) :
  getAuthUser w = (Ok user, w) ->
  ids_not_empty w ->
  fetchFavoriteId property w
  = (Ok (option_map Favorite.id
           (List.head (favorites_of_pair (user_id user) property w))), w) /\
  (fst (fetchFavoriteId property w) = Ok None <->
   favorites_of_pair (user_id user) property w = []).
Proof.
  intros Hauth Hids.
  assert (Hrun : fetchFavoriteId property w
                 = (Ok (option_map Favorite.id
                          (List.head (favorites_of_pair (user_id user) property w))), w)).
  { unfold fetchFavoriteId. rewrite (run_from _ _ _ _ _ Hauth).
    unfold bind, db_favorite_findFirst, ret, favorites_of_pair.
    rewrite find_head_filter.
    destruct (List.filter _ (favorites (db w))) as [|f rest] eqn:Hrows;
      [reflexivity|].
    assert (Hin : In f (favorites (db w))).
    { apply (proj1 (filter_In (favorite_of (user_id user) property) f
                              (favorites (db w)))).
      rewrite Hrows. left. reflexivity. }
    unfold ids_not_empty in Hids. rewrite List.Forall_forall in Hids.
    specialize (Hids f Hin). cbn [List.head option_map truthy].
    apply String.eqb_neq in Hids. rewrite Hids. reflexivity. }
  split; [exact Hrun|]. rewrite Hrun. cbn [fst].
  destruct (favorites_of_pair (user_id user) property w) as [|f rest].
  - split; reflexivity.
  - split; discriminate.
Qed.

(** X14: the toggle and [fetchFavoriteId] agree.  For a stored property
    that the identity has not marked, [fetchFavoriteId] answers [null];
    after a toggle without an id it answers an id; after a toggle with that
    id it answers [null] again. *)
Theorem toggle_then_fetchFavoriteId (w : World) (user : User) (property path : string) :
  getAuthUser w = (Ok user, w) ->
  In (user_id user) (map Profile.clerkId (profiles (db w))) ->
  In property (map Property.id (properties (db w))) ->
  favorites_of_pair (user_id user) property w = [] ->
  exists (id : string) (w1 w2 : World),
    fetchFavoriteId property w = (Ok None, w) /\
    snd (toggleFavoriteAction (mkToggleState property None path) w) = w1 /\
    fetchFavoriteId property w1 = (Ok (Some id), w1) /\
    snd (toggleFavoriteAction (mkToggleState property (Some id) path) w1) = w2 /\
    fetchFavoriteId property w2 = (Ok None, w2).
Proof.
  intros Hauth Hprofile Hproperty Hnone.
  set (row := new_favorite (user_id user) property w).
  set (w1 := after_create (user_id user) property path w).
  set (w2 := after_delete (Favorite.id row) path w1).
  assert (Hauth1 : getAuthUser w1 = (Ok user, w1)).
  { apply (getAuthUser_same w); [reflexivity|reflexivity|exact Hauth]. }
  assert (Hauth2 : getAuthUser w2 = (Ok user, w2)).
  { apply (getAuthUser_same w); [reflexivity|reflexivity|exact Hauth]. }
  assert (Hfetch : forall (v : World) (rows : list Favorite.t),
            getAuthUser v = (Ok user, v) ->
            List.filter (favorite_of (user_id user) property) (favorites (db v)) = rows ->
            fetchFavoriteId property v
            = (Ok (let first := option_map Favorite.id (List.head rows) in
                   if truthy first then first else None), v)).
  { intros v rows Hv Hrows. unfold fetchFavoriteId.
    rewrite (run_from _ _ _ _ _ Hv).
    unfold bind, db_favorite_findFirst, ret.
    rewrite find_head_filter, Hrows. reflexivity. }
  assert (Hrows1 : List.filter (favorite_of (user_id user) property) (favorites (db w1))
                   = [row]).
  { apply filter_pair_fresh; [exact Hnone|reflexivity|reflexivity]. }
  assert (Hrows2 : List.filter (favorite_of (user_id user) property) (favorites (db w2))
                   = []).
  { simpl. rewrite List.filter_app. simpl. rewrite String.eqb_refl. simpl.
    rewrite app_nil_r, delete_keeps_others; [exact Hnone|apply uuid_fresh]. }
  exists (Favorite.id row), w1, w2.
  split; [|split; [|split; [|split]]].
  - rewrite (Hfetch w [] Hauth Hnone). reflexivity.
  - rewrite (toggle_create_run w user); [reflexivity|exact Hauth|reflexivity| |];
      apply existsb_in_map; assumption.
  - rewrite (Hfetch w1 [row] Hauth1 Hrows1). reflexivity.
  - rewrite (toggle_delete_run w1 user); [reflexivity|exact Hauth1|apply uuid_not_empty|].
    simpl. rewrite map_app, in_app_iff. right. left. reflexivity.
  - rewrite (Hfetch w2 [] Hauth2 Hrows2). reflexivity.
Qed.

(** X15: for a resolved identity [fetchFavorites] reads without changing
    anything; each card it returns is the listing projection of a stored
    property that a favorite row of this identity points at; and in a state
    that keeps the schema it returns one card per favorite row of the
    identity, in the order of the rows. *)
Theorem fetchFavorites_lists_own_favorites (w : World) (user : User) :
  getAuthUser w = (Ok user, w) ->
  exists cards : list PropertyCard,
    fetchFavorites w = (Ok cards, w) /\
    (forall card, In card cards ->
       exists f p, In f (favorites (db w)) /\ Favorite.profileId f = user_id user /\
                   In p (properties (db w)) /\ Property.id p = Favorite.propertyId f /\
                   card = select_card p) /\
    (db_wf (db w) ->
     map card_id cards
     = map Favorite.propertyId
           (List.filter (fun f => String.eqb (Favorite.profileId f) (user_id user))
                        (favorites (db w)))).
Proof.
  intros Hauth. unfold fetchFavorites. rewrite (run_from _ _ _ _ _ Hauth).
  unfold bind, db_favorite_findMany_property, ret. eexists. split; [reflexivity|].
  split.
  - intros card Hin. apply list_elem_of_In in Hin.
    apply list_elem_of_omap in Hin as (f & Hf & Hcard).
    apply list_elem_of_In in Hf. apply filter_In in Hf as [Hf Hmine].
    destruct (List.find _ (properties (db w))) as [p|] eqn:Hfind; [|discriminate].
    apply find_some in Hfind as [Hp Hid]. injection Hcard as <-.
    exists f, p. apply String.eqb_eq in Hmine, Hid. tauto.
  - intros (_ & _ & _ & _ & _ & _ & Hfk).
    assert (Hall : forall f, In f (List.filter
                                     (fun f => String.eqb (Favorite.profileId f) (user_id user))
                                     (favorites (db w))) ->
                   In (Favorite.propertyId f) (map Property.id (properties (db w)))).
    { intros f Hin. apply filter_In in Hin as [Hin _]. apply (Hfk f Hin). }
    induction (List.filter _ (favorites (db w))) as [|f rows IH]; [reflexivity|].
    cbn [omap list_omap map].
    destruct (List.find (fun p => String.eqb (Property.id p) (Favorite.propertyId f))
                        (properties (db w))) as [p|] eqn:Hfind.
    + cbn [option_map map]. apply find_some in Hfind as [_ Hid].
      apply String.eqb_eq in Hid. simpl. rewrite Hid. f_equal.
      apply IH. intros g Hg. apply Hall. right. exact Hg.
    + exfalso. specialize (Hall f (or_introl eq_refl)).
      apply in_map_iff in Hall as (p & Hid & Hp).
      apply (find_none _ _ Hfind) in Hp. apply String.eqb_neq in Hp. contradiction.
Qed.

(** X16: a toggle that cannot be done answers with the error's message and
    changes nothing, the revalidated paths included: so for an id that no
    favorite row has, and so for a toggle without an id on a property that
    is not stored.  An empty favorite id counts as no id. *)
Theorem toggleFavorite_failure_changes_nothing (w : World) (user : User)
        (property path : string) :
  getAuthUser w = (Ok user, w) ->
  (forall id, id <> "" -> ~ In id (map Favorite.id (favorites (db w))) ->
     exists msg,
       toggleFavoriteAction (mkToggleState property (Some id) path) w
       = (Ok (renderError (JsError msg)), w)) /\
  (forall fid, truthy fid = false ->
     ~ In property (map Property.id (properties (db w))) ->
     exists msg,
       toggleFavoriteAction (mkToggleState property fid path) w
       = (Ok (renderError (JsError msg)), w)) /\
  toggleFavoriteAction (mkToggleState property (Some "") path) w
  = toggleFavoriteAction (mkToggleState property None path) w.
Proof.
  intros Hauth. split; [|split].
  - intros id Hid Hnot.
    assert (Hex : existsb (fun f => String.eqb (Favorite.id f) id) (favorites (db w))
                  = false).
    { apply not_true_is_false. intros Hex.
      apply (proj1 (existsb_in_map Favorite.id id (favorites (db w)))) in Hex.
      exact (Hnot Hex). }
    apply String.eqb_neq in Hid.
    unfold toggleFavoriteAction. rewrite (run_from _ _ _ _ _ Hauth).
    cbn [favoriteId propertyId pathname truthy]. rewrite Hid. cbn [negb].
    unfold try_catch, bind, db_favorite_delete. cbn [from_option Datatypes.id].
    rewrite Hex. eexists. reflexivity.
  - intros fid Hfalsy Hnot.
    assert (Hex : existsb (fun p => String.eqb (Property.id p) property)
                          (properties (db w)) = false).
    { apply not_true_is_false. intros Hex.
      apply (proj1 (existsb_in_map Property.id property (properties (db w)))) in Hex.
      exact (Hnot Hex). }
    unfold toggleFavoriteAction. rewrite (run_from _ _ _ _ _ Hauth).
    cbn [favoriteId propertyId pathname]. rewrite Hfalsy.
    unfold try_catch, bind, db_favorite_create. rewrite Hex.
    destruct (existsb _ (profiles (db w))); eexists; reflexivity.
  - reflexivity.
Qed.

(** ** Updating the profile *)

Lemma find_map_same_key {A} (hit : A -> bool) (g : A -> A) (l : list A) :
  (forall q, hit (g q) = hit q) ->
  List.find hit (map g l) = option_map g (List.find hit l).
Proof.
  intros Hg. induction l as [|x l IH]; simpl; [reflexivity|].
  rewrite Hg. destruct (hit x); [reflexivity|exact IH].
Qed.

Lemma find_snoc_new {A} (hit : A -> bool) (l : list A) (x : A) :
  List.find hit l = None -> hit x = true -> List.find hit (l ++ [x]) = Some x.
Proof.
  intros Hnone Hx. induction l as [|y l IH]; simpl in *; [rewrite Hx; reflexivity|].
  destruct (hit y); [discriminate|]. apply IH. exact Hnone.
Qed.

Lemma profile_update_run (w : World) (clerkId : string)
      (data : Profile.t -> Profile.t) (old : Profile.t) :
  fst (db_profile_findUnique clerkId w) = Ok (Some old) ->
  (forall q, Profile.clerkId (data q) = Profile.clerkId q) ->
  let change q := if String.eqb (Profile.clerkId q) clerkId
                  then touch (clock w) (data q) else q in
  let w' := commit (mkDb (map change (profiles (db w))) (properties (db w))
                         (favorites (db w))) w in
  db_profile_update clerkId data w = (Ok (touch (clock w) (data old)), w') /\
  fst (db_profile_findUnique clerkId w') = Ok (Some (touch (clock w) (data old))).
Proof.
  intros Hold Hkey change w'. unfold db_profile_findUnique in *. cbn [fst] in *.
  injection Hold as Hold.
  assert (Hhit : String.eqb (Profile.clerkId old) clerkId = true).
  { apply find_some in Hold. tauto. }
  assert (Hchange : change old = touch (clock w) (data old)).
  { unfold change. rewrite Hhit. reflexivity. }
  split.
  - unfold db_profile_update. rewrite Hold. cbv beta iota zeta. rewrite Hhit.
    reflexivity.
  - f_equal. subst w'. cbn [db commit profiles].
    rewrite (find_map_same_key _ change).
    + rewrite Hold. cbn [option_map]. rewrite Hchange. reflexivity.
    + intros q. unfold change.
      destruct (String.eqb (Profile.clerkId q) clerkId) eqn:Hq; [|exact Hq].
      cbn [touch Profile.clerkId]. rewrite Hkey. exact Hq.
Qed.

(** X6: for a resolved identity with a profile row and a form that passes
    the schema, updating the profile answers that it succeeded and
    revalidates [/profile]; the rows of other identities stay as they were
    and no row is added or removed; and [fetchProfile] then gives the
    identity's row with the new names and with its id, [clerkId], email,
    image and creation time as before. *)
Theorem updateProfile_then_fetchProfile (formData : FormData) (w : World)
        (user : User) (fields : ProfileFields) (old : Profile.t) :
  getAuthUser w = (Ok user, w) ->
  profileSchema (fromEntries formData) = inr fields ->
  fst (db_profile_findUnique (user_id user) w) = Ok (Some old) ->
  exists (w' : World) (new : Profile.t),
    updateProfileAction formData w
    = (Ok (mkMessage "Profile updated successfully"), w') /\
    revalidated w' = (revalidated w ++ ["/profile"])%list /\
    length (profiles (db w')) = length (profiles (db w)) /\
    (forall q, In q (profiles (db w)) -> Profile.clerkId q <> user_id user ->
               In q (profiles (db w'))) /\
    fetchProfile w' = (Ok new, w') /\
    Profile.firstName new = pf_firstName fields /\
    Profile.lastName new = pf_lastName fields /\
    Profile.username new = pf_username fields /\
    Profile.id new = Profile.id old /\
    Profile.clerkId new = user_id user /\
    Profile.email new = Profile.email old /\
    Profile.profileImage new = Profile.profileImage old /\
    Profile.createdAt new = Profile.createdAt old.
Proof.
  intros Hauth Hvalid Hold.
  destruct (profile_update_run w (user_id user) (data_fields fields) old Hold
              (fun q => eq_refl)) as [Hrun Hfound].
  cbv zeta in Hrun, Hfound.
  set (new := touch (clock w) (data_fields fields old)) in *.
  set (change := fun q => if String.eqb (Profile.clerkId q) (user_id user)
                          then touch (clock w) (data_fields fields q) else q) in *.
  set (w' := mkWorld (session w) (identities w)
                     (mkDb (map change (profiles (db w))) (properties (db w))
                           (favorites (db w)))
                     (S (clock w)) (uploads w) (revalidated w ++ ["/profile"])).
  assert (Hauth' : getAuthUser w' = (Ok user, w')).
  { apply (getAuthUser_same w); [reflexivity|reflexivity|exact Hauth]. }
  assert (Hfound' : fst (db_profile_findUnique (user_id user) w') = Ok (Some new))
    by exact Hfound.
  assert (Hkey : Profile.clerkId old = user_id user).
  { unfold db_profile_findUnique in Hold. cbn [fst] in Hold. injection Hold as Hold.
    apply find_some in Hold as [_ Hk]. apply String.eqb_eq. exact Hk. }
  exists w', new.
  split; [|split; [|split; [|split; [|split]]]].
  - unfold updateProfileAction. rewrite (run_from _ _ _ _ _ Hauth).
    unfold try_catch, bind at 1. unfold validateWithZodSchema. rewrite Hvalid.
    cbn [ret]. unfold bind at 1. rewrite Hrun. reflexivity.
  - reflexivity.
  - cbn. apply length_map.
  - intros q Hq Hother. cbn. apply in_map_iff. exists q. split; [|exact Hq].
    unfold change. apply String.eqb_neq in Hother. rewrite Hother. reflexivity.
  - unfold fetchProfile. rewrite (run_from _ _ _ _ _ Hauth').
    rewrite (run_findUnique _ _ _ _ Hfound'). reflexivity.
  - repeat split; try reflexivity. exact Hkey.
Qed.

(** X7: for a resolved identity, a form that the profile schema rejects
    is answered with the schema's message, and an identity without a profile
    row with the store's error message; in both cases nothing is written
    and nothing revalidated. *)
Theorem updateProfile_failure_changes_nothing (formData : FormData) (w : World)
        (user : User) :
  getAuthUser w = (Ok user, w) ->
  (forall msg, profileSchema (fromEntries formData) = inl msg ->
     updateProfileAction formData w = (Ok (renderError (JsError msg)), w)) /\
  (fst (db_profile_findUnique (user_id user) w) = Ok None ->
     exists msg, updateProfileAction formData w = (Ok (renderError (JsError msg)), w)).
Proof.
  intros Hauth. split.
  - intros msg Hbad. unfold updateProfileAction. rewrite (run_from _ _ _ _ _ Hauth).
    unfold try_catch, bind, validateWithZodSchema. rewrite Hbad. reflexivity.
  - intros Hnone. unfold db_profile_findUnique in Hnone. cbn [fst] in Hnone.
    injection Hnone as Hnone.
    unfold updateProfileAction. rewrite (run_from _ _ _ _ _ Hauth).
    unfold try_catch, bind, validateWithZodSchema.
    destruct (profileSchema (fromEntries formData)) as [msg|fields];
      [eexists; reflexivity|].
    cbn [ret]. unfold db_profile_update. rewrite Hnone. eexists. reflexivity.
Qed.

(** X8: updating the profile image with a valid file makes one call to the
    object storage, for that file, before it writes.  When the upload gives
    a path and the identity has a profile row, the row's image becomes that
    path (as [fetchProfileImage] then shows) and [/profile] is revalidated.
    When the upload fails the answer is the rendered failure and the store
    is not written.  When the upload succeeds and no profile row exists, the
    upload has happened and the store is not written. *)
Theorem updateProfileImage_uploads_then_writes (formData : FormData) (w : World)
        (user : User) (f : File) :
  getAuthUser w = (Ok user, w) ->
  imageSchema (formData_get "image" formData) = inr f ->
  (forall path old,
     uploadResult f (uploads w) = inr path ->
     fst (db_profile_findUnique (user_id user) w) = Ok (Some old) ->
     exists w',
       updateProfileImageAction formData w
       = (Ok (mkMessage "Profile image updated successfully"), w') /\
       uploads w' = (uploads w ++ [f])%list /\
       revalidated w' = (revalidated w ++ ["/profile"])%list /\
       fetchProfileImage w' = (Ok (JsValue path), w')) /\
  (forall t,
     uploadResult f (uploads w) = inl t ->
     exists w',
       updateProfileImageAction formData w = (Ok (renderError t), w') /\
       uploads w' = (uploads w ++ [f])%list /\ db w' = db w /\
       revalidated w' = revalidated w) /\
  (forall path,
     uploadResult f (uploads w) = inr path ->
     fst (db_profile_findUnique (user_id user) w) = Ok None ->
     exists msg w',
       updateProfileImageAction formData w = (Ok (renderError (JsError msg)), w') /\
       uploads w' = (uploads w ++ [f])%list /\ db w' = db w).
Proof.
  intros Hauth Hvalid. split; [|split].
  - intros path old Hup Hold.
    set (w1 := mkWorld (session w) (identities w) (db w) (clock w)
                       (uploads w ++ [f]) (revalidated w)).
    assert (Hold1 : fst (db_profile_findUnique (user_id user) w1) = Ok (Some old))
      by exact Hold.
    destruct (profile_update_run w1 (user_id user) (data_profileImage path) old Hold1
                (fun q => eq_refl)) as [Hrun Hfound].
    cbv zeta in Hrun, Hfound.
    set (change := fun q => if String.eqb (Profile.clerkId q) (user_id user)
                            then touch (clock w1) (data_profileImage path q) else q) in *.
    set (w' := mkWorld (session w) (identities w)
                       (mkDb (map change (profiles (db w))) (properties (db w))
                             (favorites (db w)))
                       (S (clock w)) (uploads w ++ [f]) (revalidated w ++ ["/profile"])).
    assert (Huser : fst (currentUser w') = Ok (Some user)).
    { change (fst (currentUser w') ) with (fst (currentUser w)).
      destruct (getAuthUser_cases w) as [[_ Hg]|[(u & _ & _ & Hg)|(u & Hu & _ & Hg)]];
        congruence. }
    assert (Hfound' : fst (db_profile_findUnique (user_id user) w')
                      = Ok (Some (touch (clock w1) (data_profileImage path old))))
      by exact Hfound.
    exists w'. split; [|split; [|split]].
    + unfold updateProfileImageAction. rewrite (run_from _ _ _ _ _ Hauth).
      unfold try_catch, bind at 1. unfold validateWithZodSchema. rewrite Hvalid.
      cbn [ret]. unfold bind at 1. unfold uploadImage. rewrite Hup.
      fold w1. unfold bind at 1. rewrite Hrun. reflexivity.
    + reflexivity.
    + reflexivity.
    + unfold fetchProfileImage. rewrite (run_currentUser _ _ _ Huser).
      rewrite (run_findUnique _ _ _ _ Hfound'). reflexivity.
  - intros t Hup. eexists. split; [|split; [|split]].
    + unfold updateProfileImageAction. rewrite (run_from _ _ _ _ _ Hauth).
      unfold try_catch, bind at 1. unfold validateWithZodSchema. rewrite Hvalid.
      cbn [ret]. unfold bind at 1. unfold uploadImage. rewrite Hup. reflexivity.
    + reflexivity.
    + reflexivity.
    + reflexivity.
  - intros path Hup Hnone. unfold db_profile_findUnique in Hnone. cbn [fst] in Hnone.
    injection Hnone as Hnone. eexists. eexists. split; [|split].
    + unfold updateProfileImageAction. rewrite (run_from _ _ _ _ _ Hauth).
      unfold try_catch, bind at 1. unfold validateWithZodSchema. rewrite Hvalid.
      cbn [ret]. unfold bind at 1. unfold uploadImage. rewrite Hup.
      unfold bind at 1. unfold db_profile_update. cbn [db profiles]. rewrite Hnone.
      reflexivity.
    + reflexivity.
    + reflexivity.
Qed.

(** ** Creating the profile, and what follows *)

Lemma currentUser_session (w : World) (user : User) :
  fst (currentUser w) = Ok (Some user) ->
  session w = Some (user_id user) /\
  identities w !! user_id user
  = Some (mkIdentity (emailAddresses user) (imageUrl user) (hasProfile user)).
Proof.
  unfold currentUser. cbn [fst]. intros Hu.
  destruct (session w) as [sid|]; [|discriminate].
  destruct (identities w !! sid) as [i|] eqn:Hi; [|discriminate].
  injection Hu as <-. cbn. split; [reflexivity|]. rewrite Hi. destruct i; reflexivity.
Qed.

Lemma createProfile_run (formData : FormData) (w : World) (user : User)
      (fields : ProfileFields) (address : string) (others : list string) :
  fst (currentUser w) = Ok (Some user) ->
  profileSchema (fromEntries formData) = inr fields ->
  emailAddresses user = address :: others ->
  ~ In (user_id user) (map Profile.clerkId (profiles (db w))) ->
  createProfileAction formData w
  = (Thrown (NextRedirect "/"),
     mkWorld (session w)
             (<[user_id user := mkIdentity (emailAddresses user) (imageUrl user) true]>
                (identities w))
             (mkDb (profiles (db w) ++
                    [Profile.mk (uuid (map Profile.id (profiles (db w)))) (user_id user)
                                (pf_firstName fields) (pf_lastName fields)
                                (pf_username fields) address
                                (default "" (imageUrl user)) (clock w) (clock w)])
                   (properties (db w)) (favorites (db w)))
             (S (clock w)) (uploads w) (revalidated w)).
Proof.
  intros Huser Hvalid Hmail Hnew.
  destruct (currentUser_session w user Huser) as [Hsid Hi].
  assert (Hfree : existsb (fun p => String.eqb (Profile.clerkId p) (user_id user))
                          (profiles (db w)) = false).
  { apply not_true_is_false. intros Hex.
    apply (proj1 (existsb_in_map Profile.clerkId (user_id user) (profiles (db w)))) in Hex.
    exact (Hnew Hex). }
  unfold createProfileAction. unfold bind at 1. unfold try_catch.
  rewrite (run_currentUser _ _ _ Huser).
  unfold bind, validateWithZodSchema, first_emailAddress, db_profile_create,
    updateUserMetadata_hasProfile.
  rewrite Hvalid. cbn [ret]. rewrite Hmail. cbn [ret]. rewrite Hfree.
  cbn [commit identities]. rewrite Hi. cbn [identity_emails identity_image].
  rewrite ?Hmail. reflexivity.
Qed.

(** X4: after a profile creation that succeeds, the identity passes the
    identity-resolution step, [fetchProfile] gives the row just created,
    with the validated names and the identity's first email address, and
    [fetchProfileImage] gives the identity's image, or the empty string when
    it has none. *)
Theorem createProfile_then_fetchProfile (formData : FormData) (w : World) (user : User)
        (fields : ProfileFields) (address : string) (others : list string) :
  fst (currentUser w) = Ok (Some user) ->
  profileSchema (fromEntries formData) = inr fields ->
  emailAddresses user = address :: others ->
  ~ In (user_id user) (map Profile.clerkId (profiles (db w))) ->
  exists (row : Profile.t) (w' : World),
    snd (createProfileAction formData w) = w' /\
    getAuthUser w'
    = (Ok (mkUser (user_id user) (emailAddresses user) (imageUrl user) true), w') /\
    fetchProfile w' = (Ok row, w') /\
    Profile.clerkId row = user_id user /\
    Profile.firstName row = pf_firstName fields /\
    Profile.lastName row = pf_lastName fields /\
    Profile.username row = pf_username fields /\
    Profile.email row = address /\
    fetchProfileImage w' = (Ok (JsValue (default "" (imageUrl user))), w').
Proof.
  intros Huser Hvalid Hmail Hnew.
  pose proof (createProfile_run formData w user fields address others
                Huser Hvalid Hmail Hnew) as Hrun.
  destruct (currentUser_session w user Huser) as [Hsid Hi].
  match type of Hrun with _ = (_, ?v) => set (w' := v) in * end.
  set (row := Profile.mk (uuid (map Profile.id (profiles (db w)))) (user_id user)
                         (pf_firstName fields) (pf_lastName fields)
                         (pf_username fields) address
                         (default "" (imageUrl user)) (clock w) (clock w)) in *.
  assert (Huser' : fst (currentUser w')
                   = Ok (Some (mkUser (user_id user) (emailAddresses user)
                                      (imageUrl user) true))).
  { unfold currentUser. cbn [fst session identities w']. rewrite Hsid.
    rewrite lookup_insert_eq. reflexivity. }
  assert (Hauth' : getAuthUser w'
                   = (Ok (mkUser (user_id user) (emailAddresses user)
                                 (imageUrl user) true), w')).
  { destruct (getAuthUser_cases w') as [[Hn _]|[(u & Hu & Hf & _)|(u & Hu & _ & Hg)]].
    - congruence.
    - rewrite Huser' in Hu. injection Hu as <-. discriminate.
    - rewrite Huser' in Hu. injection Hu as <-. exact Hg. }
  assert (Hfound : fst (db_profile_findUnique (user_id user) w') = Ok (Some row)).
  { unfold db_profile_findUnique. cbn [fst db profiles w']. f_equal.
    apply find_snoc_new; [|apply String.eqb_refl].
    destruct (List.find _ (profiles (db w))) as [p|] eqn:Hfind; [|reflexivity].
    apply find_some in Hfind as [Hp Hk]. apply String.eqb_eq in Hk.
    destruct Hnew. apply in_map_iff. exists p. tauto. }
  exists row, w'. split; [rewrite Hrun; reflexivity|]. split; [exact Hauth'|].
  split.
  - unfold fetchProfile. rewrite (run_from _ _ _ _ _ Hauth').
    rewrite (run_findUnique _ _ _ _ Hfound). reflexivity.
  - repeat split.
    unfold fetchProfileImage. rewrite (run_currentUser _ _ _ Huser').
    rewrite (run_findUnique _ _ _ _ Hfound). reflexivity.
Qed.

(** X5: a profile creation that fails changes nothing.  A form that the
    schema rejects is answered with the schema's message; an identity with
    no email address with the rendered [TypeError]; and an identity that
    already has a profile row with the store's error message, without a
    second row and without a write to the identity provider. *)
Theorem createProfile_failure_changes_nothing (formData : FormData) (w : World)
        (user : User) :
  fst (currentUser w) = Ok (Some user) ->
  (forall msg, profileSchema (fromEntries formData) = inl msg ->
     createProfileAction formData w = (Ok (renderError (JsError msg)), w)) /\
  (forall fields, profileSchema (fromEntries formData) = inr fields ->
     emailAddresses user = [] ->
     createProfileAction formData w
     = (Ok (renderError (JsTypeError "emailAddress")), w)) /\
  (forall fields address others,
     profileSchema (fromEntries formData) = inr fields ->
     emailAddresses user = address :: others ->
     In (user_id user) (map Profile.clerkId (profiles (db w))) ->
     exists msg,
       createProfileAction formData w = (Ok (renderError (JsError msg)), w)).
Proof.
  intros Huser. split; [|split].
  - intros msg Hbad. unfold createProfileAction. unfold bind at 1. unfold try_catch.
    rewrite (run_currentUser _ _ _ Huser).
    unfold bind, validateWithZodSchema. rewrite Hbad. reflexivity.
  - intros fields Hvalid Hmail. unfold createProfileAction. unfold bind at 1.
    unfold try_catch. rewrite (run_currentUser _ _ _ Huser).
    unfold bind, validateWithZodSchema, first_emailAddress. rewrite Hvalid.
    cbn [ret]. rewrite Hmail. reflexivity.
  - intros fields address others Hvalid Hmail Htaken.
    apply (proj2 (existsb_in_map Profile.clerkId (user_id user) (profiles (db w))))
      in Htaken.
    unfold createProfileAction. unfold bind at 1. unfold try_catch.
    rewrite (run_currentUser _ _ _ Huser).
    unfold bind, validateWithZodSchema, first_emailAddress, db_profile_create.
    rewrite Hvalid. cbn [ret]. rewrite Hmail. cbn [ret]. rewrite Htaken.
    eexists. reflexivity.
Qed.

(** ** Listings *)

(** X11: for a search string whose lower-cased form has no [%], [_] or
    backslash, the search leaves no match out: every stored property of the
    wanted category whose name or tagline has the search string, case
    ignored, is among the cards returned.  Two search strings with the same
    lower-cased form give the same answer. *)
Theorem fetchProperties_returns_every_match (search category : option string)
        (w : World) :
  (wildcard_free (lower (default "" search)) = true ->
   forall p, In p (properties (db w)) ->
     category_is category p = true ->
     occurs_insensitive (default "" search) (Property.name p) \/
     occurs_insensitive (default "" search) (Property.tagline p) ->
     exists cards,
       fetchProperties search category w = (Ok cards, w) /\
       In (select_card p) cards) /\
  (forall other, lower (default "" other) = lower (default "" search) ->
     fetchProperties other category w = fetchProperties search category w).
Proof.
  split.
  - intros Hfree p Hp Hcat Hocc.
    destruct (contains_pattern_occurs (default "" search) (Property.name p) Hfree)
      as (pattern & Hpat & Hname).
    destruct (contains_pattern_occurs (default "" search) (Property.tagline p) Hfree)
      as (pattern' & Hpat' & Htag).
    rewrite Hpat in Hpat'. injection Hpat' as <-.
    unfold fetchProperties, bind, db_property_findMany. rewrite Hpat.
    eexists. split; [reflexivity|].
    apply in_map. apply filter_In. split; [exact Hp|].
    rewrite Hcat. cbn [andb]. apply orb_true_iff.
    destruct Hocc as [Hocc|Hocc]; [left; apply Hname|right; apply Htag]; exact Hocc.
  - intros other Hsame. unfold fetchProperties, bind, db_property_findMany.
    rewrite !lower_contains_pattern, Hsame. reflexivity.
Qed.

Lemma find_unique_key {A} (key : A -> string) (k : string) (l : list A) (x : A) :
  List.NoDup (map key l) -> In x l -> key x = k ->
  List.find (fun y => String.eqb (key y) k) l = Some x.
Proof.
  induction l as [|y l IH]; simpl; intros Hnd Hin Hk; [destruct Hin|].
  inversion Hnd as [|? ? Hy Hnd']; subst.
  destruct (String.eqb_spec (key y) (key x)) as [Heq|Hne].
  - destruct Hin as [->|Hin]; [reflexivity|].
    destruct Hy. rewrite Heq. apply in_map. exact Hin.
  - destruct Hin as [->|Hin]; [destruct Hne; reflexivity|].
    apply IH; [exact Hnd'|exact Hin|reflexivity].
Qed.

(** X12: [fetchPropertyDetails] changes nothing; for an id that no stored
    property has it answers [null] and does not fail; and in a state that
    keeps the schema, for the id of a stored property it answers that
    property together with its owner's profile. *)
Theorem fetchPropertyDetails_reads (id : string) (w : World) :
  snd (fetchPropertyDetails id w) = w /\
  (~ In id (map Property.id (properties (db w))) ->
   fetchPropertyDetails id w = (Ok None, w)) /\
  (db_wf (db w) ->
   forall p, In p (properties (db w)) -> Property.id p = id ->
     exists owner,
       In owner (profiles (db w)) /\
       Profile.clerkId owner = Property.profileId p /\
       fetchPropertyDetails id w = (Ok (Some (mkPropertyDetails p owner)), w)).
Proof.
  unfold fetchPropertyDetails, db_property_findUnique_include_profile.
  split; [|split].
  - destruct (List.find _ (properties (db w))); [|reflexivity].
    destruct (List.find _ (profiles (db w))); reflexivity.
  - intros Hnot.
    destruct (List.find _ (properties (db w))) as [p|] eqn:Hfind; [|reflexivity].
    apply find_some in Hfind as [Hp Hid]. apply String.eqb_eq in Hid.
    destruct Hnot. apply in_map_iff. exists p. tauto.
  - intros (_ & Hclerk & Hids & _ & _ & Hfk & _) p Hp Hid.
    rewrite (find_unique_key Property.id id _ p Hids Hp Hid).
    specialize (Hfk p Hp). apply in_map_iff in Hfk as (owner & Hkey & Hin).
    exists owner. split; [exact Hin|]. split; [exact Hkey|].
    rewrite (find_unique_key Profile.clerkId _ _ owner Hclerk Hin Hkey). reflexivity.
Qed.

Lemma createProperty_run (formData : FormData) (w : World) (user : User)
      (fields : PropertyFields) (f : File) (path : string) :
  getAuthUser w = (Ok user, w) ->
  propertySchema (fromEntries formData) = inr fields ->
  ints_fit fields = true ->
  imageSchema (formData_get "image" formData) = inr f ->
  uploadResult f (uploads w) = inr path ->
  In (user_id user) (map Profile.clerkId (profiles (db w))) ->
  createPropertyAction formData w
  = (Thrown (NextRedirect "/"),
     mkWorld (session w) (identities w)
             (mkDb (profiles (db w))
                   (properties (db w) ++
                    [Property.mk (uuid (map Property.id (properties (db w))))
                                 (rf_name fields) (rf_tagline fields) (rf_category fields)
                                 path (rf_country fields) (rf_description fields)
                                 (rf_price fields) (rf_guests fields)
                                 (rf_bedrooms fields) (rf_beds fields) (rf_baths fields)
                                 (rf_amenities fields) (user_id user)
                                 (clock w) (clock w)])
                   (favorites (db w)))
             (S (clock w)) (uploads w ++ [f]) (revalidated w)).
Proof.
  intros Hauth Hfields Hints Himage Hup Howner.
  apply (proj2 (existsb_in_map Profile.clerkId (user_id user) (profiles (db w))))
    in Howner.
  unfold createPropertyAction. rewrite (run_from _ _ _ _ _ Hauth).
  unfold bind at 1. unfold try_catch. unfold bind at 1.
  unfold validateWithZodSchema at 1. rewrite Hfields. cbn [ret].
  unfold bind at 1. unfold validateWithZodSchema. rewrite Himage. cbn [ret].
  unfold bind at 1. unfold uploadImage. rewrite Hup.
  unfold bind at 1. unfold db_property_create. cbn [db profiles].
  rewrite Hints, Howner. reflexivity.
Qed.

(** X9: for a resolved identity with a profile row, a form that passes the
    property schema with numbers that the [Int] columns can hold, and a
    valid image whose upload gives a path, creating a property makes one
    upload, adds one row owned by the identity with the
    uploaded path as image and the validated fields, and redirects home;
    [fetchPropertyDetails] then finds the row with its owner, and a search
    of its category without search string lists its card. *)
Theorem createProperty_then_found (formData : FormData) (w : World) (user : User)
        (fields : PropertyFields) (f : File) (path : string) :
  getAuthUser w = (Ok user, w) ->
  propertySchema (fromEntries formData) = inr fields ->
  ints_fit fields = true ->
  imageSchema (formData_get "image" formData) = inr f ->
  uploadResult f (uploads w) = inr path ->
  List.NoDup (map Profile.clerkId (profiles (db w))) ->
  In (user_id user) (map Profile.clerkId (profiles (db w))) ->
  exists (row : Property.t) (owner : Profile.t) (w' : World),
    createPropertyAction formData w = (Thrown (NextRedirect "/"), w') /\
    properties (db w') = (properties (db w) ++ [row])%list /\
    uploads w' = (uploads w ++ [f])%list /\
    Property.profileId row = user_id user /\
    Property.image row = path /\
    Property.name row = rf_name fields /\
    Property.tagline row = rf_tagline fields /\
    Property.category row = rf_category fields /\
    Property.price row = rf_price fields /\
    Profile.clerkId owner = user_id user /\
    fetchPropertyDetails (Property.id row) w'
    = (Ok (Some (mkPropertyDetails row owner)), w') /\
    (exists cards,
       fetchProperties None (Some (rf_category fields)) w' = (Ok cards, w') /\
       In (select_card row) cards).
Proof.
  intros Hauth Hfields Hints Himage Hup Hclerk Howner.
  pose proof (createProperty_run formData w user fields f path
                Hauth Hfields Hints Himage Hup Howner) as Hrun.
  match type of Hrun with _ = (_, ?v) => set (w' := v) in * end.
  set (row := Property.mk (uuid (map Property.id (properties (db w))))
                          (rf_name fields) (rf_tagline fields) (rf_category fields)
                          path (rf_country fields) (rf_description fields)
                          (rf_price fields) (rf_guests fields)
                          (rf_bedrooms fields) (rf_beds fields) (rf_baths fields)
                          (rf_amenities fields) (user_id user)
                          (clock w) (clock w)) in *.
  apply in_map_iff in Howner as (owner & Hkey & Hin).
  exists row, owner, w'.
  split; [exact Hrun|]. repeat (split; [reflexivity|]).
  split; [exact Hkey|]. split.
  - unfold fetchPropertyDetails, db_property_findUnique_include_profile.
    cbn [db properties profiles w'].
    rewrite (find_snoc_new _ _ row); [|
      |cbn [Property.id row]; apply String.eqb_refl].
    + cbn [Property.profileId row].
      rewrite (find_unique_key Profile.clerkId _ _ owner Hclerk Hin Hkey). reflexivity.
    + destruct (List.find _ (properties (db w))) as [p|] eqn:Hfind; [|reflexivity].
      apply find_some in Hfind as [Hp Hid]. apply String.eqb_eq in Hid.
      destruct (uuid_fresh (map Property.id (properties (db w)))).
      cbn [Property.id row] in Hid. rewrite <- Hid. apply in_map. exact Hp.
  - eexists. split; [reflexivity|]. apply in_map. apply filter_In. split.
    + cbn [db properties w']. apply in_or_app. right. left. reflexivity.
    + cbn [category_is Property.category row]. rewrite String.eqb_refl.
      rewrite like_everything. reflexivity.
Qed.

(** X10: creating a property either leaves the store as it was, or adds
    exactly one property row, after exactly one call to the object storage,
    and then redirects home. *)
Theorem createProperty_writes_one_row_or_nothing (formData : FormData) (w : World) :
  db (snd (createPropertyAction formData w)) = db w \/
  (exists row,
     fst (createPropertyAction formData w) = Thrown (NextRedirect "/") /\
     properties (db (snd (createPropertyAction formData w)))
     = (properties (db w) ++ [row])%list /\
     length (uploads (snd (createPropertyAction formData w)))
     = S (length (uploads w))).
Proof.
  destruct (getAuthUser_cases w) as [[_ Hg]|[(u & _ & _ & Hg)|(user & _ & _ & Hauth)]].
  - left. unfold createPropertyAction. rewrite (run_thrown _ _ _ _ _ Hg). reflexivity.
  - left. unfold createPropertyAction. rewrite (run_thrown _ _ _ _ _ Hg). reflexivity.
  - destruct (propertySchema (fromEntries formData)) as [msg|fields] eqn:Hfields.
    { left. unfold createPropertyAction. rewrite (run_from _ _ _ _ _ Hauth).
      unfold bind, try_catch, validateWithZodSchema. rewrite Hfields. reflexivity. }
    destruct (imageSchema (formData_get "image" formData)) as [msg|f] eqn:Himage.
    { left. unfold createPropertyAction. rewrite (run_from _ _ _ _ _ Hauth).
      unfold bind, try_catch, validateWithZodSchema. rewrite Hfields, Himage.
      reflexivity. }
    destruct (uploadResult f (uploads w)) as [t|path] eqn:Hup.
    { left. unfold createPropertyAction. rewrite (run_from _ _ _ _ _ Hauth).
      unfold bind, try_catch, validateWithZodSchema, uploadImage.
      rewrite Hfields, Himage. cbn [ret]. rewrite Hup. reflexivity. }
    destruct (ints_fit fields) eqn:Hints.
    2:{ left. unfold createPropertyAction. rewrite (run_from _ _ _ _ _ Hauth).
        unfold bind, try_catch, validateWithZodSchema, uploadImage, db_property_create.
        rewrite Hfields, Himage. cbn [ret]. rewrite Hup, Hints. reflexivity. }
    destruct (existsb (fun p => String.eqb (Profile.clerkId p) (user_id user))
                      (profiles (db w))) eqn:Howner.
    + right. apply existsb_in_map in Howner.
      rewrite (createProperty_run formData w user fields f path
                 Hauth Hfields Hints Himage Hup Howner).
      eexists. split; [reflexivity|]. split; [reflexivity|].
      cbn. rewrite length_app. cbn. lia.
    + left. unfold createPropertyAction. rewrite (run_from _ _ _ _ _ Hauth).
      unfold bind, try_catch, validateWithZodSchema, uploadImage, db_property_create.
      rewrite Hfields, Himage. cbn [ret]. rewrite Hup. cbn [db profiles].
      rewrite Hints, Howner. reflexivity.
Qed.

(** ** The country label, once more *)

Lemma length_append (a b : string) :
  String.length (a +:+ b) = String.length a + String.length b.
Proof. induction a as [|c a IH]; simpl; [reflexivity|rewrite IH; reflexivity]. Qed.

(** X17: whatever the component renders, the text is at most 23 characters
    long, and it is either exactly 23 characters long or the full name of a
    country of the table; the flag is the one of the code given. *)
Theorem CountryFlagAndName_label_bounded (countryCode : string) (rendered : FlagAndName) :
  CountryFlagAndName countryCode = Ok rendered ->
  String.length (label rendered) <= 23 /\
  flag_code rendered = Some countryCode /\
  (String.length (label rendered) = 23 \/
   exists c, In c countries /\ label rendered = country_name c).
Proof.
  unfold CountryFlagAndName.
  destruct (findCountryByCode countryCode) as [c|] eqn:Hf; [|discriminate].
  destruct (findCountryByCode_some _ _ Hf) as [Hin Hcode].
  intros [= <-]. cbn [label flag_code option_map]. rewrite Hcode.
  destruct (Nat.ltb_spec 20 (String.length (country_name c))) as [Hlong|Hshort].
  - destruct (substring_first 20 (country_name c)) as (rest & _ & Hl); [lia|].
    assert (Hlen : String.length (String.substring 0 20 (country_name c) +:+ "...") = 23).
    { rewrite length_append, Hl. reflexivity. }
    split; [rewrite Hlen; lia|]. split; [reflexivity|]. left. exact Hlen.
  - split; [lia|]. split; [reflexivity|]. right. exists c. tauto.
Qed.

End Coverage.

(** ** The further statements at the sample configuration *)

Lemma sample_tables_wf : db_wf Sample.tables.
Proof.
  unfold db_wf. cbn.
  split; [repeat constructor; cbn; intuition discriminate|].
  split; [repeat constructor; cbn; intuition discriminate|].
  split; [repeat constructor; cbn; intuition discriminate|].
  split; [repeat constructor; cbn; intuition discriminate|].
  split; [repeat constructor; discriminate|].
  split.
  - intros p [<-|[<-|[]]]; cbn; tauto.
  - intros f [<-|[]]. cbn. tauto.
Qed.

Lemma unresolved_identity_changes_nothing_witness :
  fetchProfile Sample.anonymous = (Thrown Tour.login_error, Sample.anonymous) /\
  @toggleFavoriteAction Sample.collaborators (mkToggleState "h1" None "/") Sample.anonymous
  = (Thrown Tour.login_error, Sample.anonymous).
Proof.
  destruct (@unresolved_identity_changes_nothing Sample.collaborators Sample.anonymous
              Tour.login_error eq_refl)
    as (Hprofile & _ & _ & _ & _ & Htoggle & _).
  split; [exact Hprofile|apply Htoggle].
Defined.

Lemma actions_keep_the_schema_witness :
  db_wf (db (snd (@toggleFavoriteAction Sample.collaborators
                    (mkToggleState "h1" None "/") Sample.world))).
Proof.
  destruct (@actions_keep_the_schema Sample.collaborators Sample.world sample_tables_wf)
    as (_ & _ & _ & _ & Htoggle).
  apply Htoggle.
Defined.

Lemma createProfile_then_fetchProfile_witness :
  exists (row : Profile.t) (w' : World),
    snd (@createProfileAction Sample.collaborators Sample.profile_form Sample.newcomer) = w' /\
    fetchProfile w' = (Ok row, w') /\
    Profile.clerkId row = "user_cat" /\
    Profile.email row = "cat@example.com".
Proof.
  destruct (@createProfile_then_fetchProfile Sample.collaborators Sample.profile_form
              Sample.newcomer Sample.cat_user Tour.cat_fields "cat@example.com" [])
    as (row & w' & Hrun & _ & Hfetch & Hkey & _ & _ & _ & Hmail & _).
  - reflexivity.
  - reflexivity.
  - reflexivity.
  - cbn. intros [Heq|[Heq|[]]]; discriminate.
  - exists row, w'. repeat split; assumption.
Defined.

Lemma createProfile_failure_changes_nothing_witness :
  exists msg,
    @createProfileAction Sample.collaborators Sample.profile_form Sample.world
    = (Ok (Sample.render (JsError msg)), Sample.world).
Proof.
  destruct (@createProfile_failure_changes_nothing Sample.collaborators
              Sample.profile_form Sample.world Sample.ann_user eq_refl)
    as (_ & _ & Htaken).
  apply (Htaken Tour.cat_fields "ann@example.com" []).
  - reflexivity.
  - reflexivity.
  - cbn. left. reflexivity.
Defined.

Lemma updateProfile_then_fetchProfile_witness :
  exists (w' : World) (new : Profile.t),
    @updateProfileAction Sample.collaborators Sample.profile_form Sample.world
    = (Ok (mkMessage "Profile updated successfully"), w') /\
    fetchProfile w' = (Ok new, w') /\
    Profile.firstName new = "Cat" /\
    Profile.clerkId new = "user_ann" /\
    Profile.email new = "ann@example.com".
Proof.
  destruct (@updateProfile_then_fetchProfile Sample.collaborators Sample.profile_form
              Sample.world Sample.ann_user Tour.cat_fields Sample.ann_profile)
    as (w' & new & Hrun & _ & _ & _ & Hfetch & Hfirst & _ & _ & _ & Hkey & Hmail & _).
  - reflexivity.
  - reflexivity.
  - reflexivity.
  - exists w', new. repeat split; assumption.
Defined.

Lemma updateProfile_failure_changes_nothing_witness :
  @updateProfileAction Sample.collaborators [] Sample.world
  = (Ok (mkMessage "firstName is required"), Sample.world).
Proof.
  destruct (@updateProfile_failure_changes_nothing Sample.collaborators []
              Sample.world Sample.ann_user eq_refl) as [Hbad _].
  apply (Hbad "firstName is required"). reflexivity.
Defined.

Lemma updateProfileImage_uploads_then_writes_witness :
  exists w',
    @updateProfileImageAction Sample.collaborators
      (Tour.image_form Sample.good_file) Sample.world
    = (Ok (mkMessage "Profile image updated successfully"), w') /\
    uploads w' = [Sample.good_file] /\
    fetchProfileImage w' = (Ok (JsValue "https://storage.example/me.png"), w').
Proof.
  destruct (@updateProfileImage_uploads_then_writes Sample.collaborators
              (Tour.image_form Sample.good_file) Sample.world Sample.ann_user
              Sample.good_file eq_refl eq_refl) as [Hgood _].
  destruct (Hgood "https://storage.example/me.png" Sample.ann_profile eq_refl eq_refl)
    as (w' & Hrun & Hup & _ & Himage).
  exists w'. repeat split; assumption.
Defined.

Lemma createProperty_then_found_witness :
  exists (row : Property.t) (w' : World),
    @createPropertyAction Sample.collaborators
      (Sample.listing_form Sample.good_file) Sample.world
    = (Thrown (NextRedirect "/"), w') /\
    Property.profileId row = "user_ann" /\
    Property.image row = "https://storage.example/me.png" /\
    fetchPropertyDetails (Property.id row) w'
    = (Ok (Some (mkPropertyDetails row Sample.ann_profile)), w').
Proof.
  destruct (@createProperty_then_found Sample.collaborators Sample.locale
              (Sample.listing_form Sample.good_file) Sample.world Sample.ann_user
              Tour.hut_fields Sample.good_file "https://storage.example/me.png")
    as (row & owner & w' & Hrun & Hrows & _ & Howner & Himage & _ & _ & _ & _
        & Hkey & Hdetails & _).
  - reflexivity.
  - reflexivity.
  - reflexivity.
  - reflexivity.
  - reflexivity.
  - repeat constructor; cbn; intuition discriminate.
  - cbn. left. reflexivity.
  - exists row, w'. split; [exact Hrun|]. split; [exact Howner|].
    split; [exact Himage|].
    assert (Hwho : owner = Sample.ann_profile).
    { injection Hrun as Hw. rewrite <- Hw in Hdetails.
      vm_compute in Hdetails. rewrite <- Hw in Hrows.
      apply app_inj_tail in Hrows as [_ <-].
      injection Hdetails as <-. reflexivity. }
    rewrite <- Hwho. exact Hdetails.
Defined.

Lemma fetchFavoriteId_first_of_pair_witness :
  fetchFavoriteId "h1" Tour.bob_signed_in = (Ok (Some "f1"), Tour.bob_signed_in) /\
  fetchFavoriteId "h2" Tour.bob_signed_in = (Ok None, Tour.bob_signed_in).
Proof.
  assert (Hids : ids_not_empty Tour.bob_signed_in).
  { repeat constructor. discriminate. }
  split.
  - exact (proj1 (@fetchFavoriteId_first_of_pair Tour.bob_signed_in Tour.bob_user
                    "h1" eq_refl Hids)).
  - exact (proj1 (@fetchFavoriteId_first_of_pair Tour.bob_signed_in Tour.bob_user
                    "h2" eq_refl Hids)).
Defined.

Lemma toggle_then_fetchFavoriteId_witness :
  exists (id : string) (w1 w2 : World),
    snd (@toggleFavoriteAction Sample.collaborators
           (mkToggleState "h1" None "/") Sample.world) = w1 /\
    fetchFavoriteId "h1" w1 = (Ok (Some id), w1) /\
    snd (@toggleFavoriteAction Sample.collaborators
           (mkToggleState "h1" (Some id) "/") w1) = w2 /\
    fetchFavoriteId "h1" w2 = (Ok None, w2).
Proof.
  destruct (@toggle_then_fetchFavoriteId Sample.collaborators Sample.world
              Sample.ann_user "h1" "/")
    as (id & w1 & w2 & _ & Hadd & Hsome & Hdel & Hnone).
  - reflexivity.
  - cbn. left. reflexivity.
  - cbn. left. reflexivity.
  - reflexivity.
  - exists id, w1, w2. repeat split; assumption.
Defined.

Lemma fetchFavorites_lists_own_favorites_witness :
  exists cards : list PropertyCard,
    fetchFavorites Tour.bob_signed_in = (Ok cards, Tour.bob_signed_in) /\
    map card_id cards = ["h1"].
Proof.
  destruct (@fetchFavorites_lists_own_favorites Tour.bob_signed_in Tour.bob_user eq_refl)
    as (cards & Hrun & _ & Hids).
  exists cards. split; [exact Hrun|]. exact (Hids sample_tables_wf).
Defined.

Lemma toggleFavorite_failure_changes_nothing_witness :
  exists msg,
    @toggleFavoriteAction Sample.collaborators
      (mkToggleState "h1" (Some "f9") "/") Sample.world
    = (Ok (Sample.render (JsError msg)), Sample.world).
Proof.
  destruct (@toggleFavorite_failure_changes_nothing Sample.collaborators Sample.world
              Sample.ann_user "h1" "/" eq_refl) as (Hmissing & _ & _).
  apply Hmissing; [discriminate|].
  cbn. intros [Heq|[]]. discriminate.
Defined.

Lemma CountryFlagAndName_label_bounded_witness :
  exists rendered,
    @CountryFlagAndName Sample.collaborators "VC" = Ok rendered /\
    String.length (label rendered) = 23.
Proof.
  eexists. split; [reflexivity|].
  destruct (@CountryFlagAndName_label_bounded Sample.collaborators "VC" _ eq_refl)
    as (_ & _ & [Hlen|(c & Hin & Hname)]).
  - exact Hlen.
  - reflexivity.
Defined.

Lemma fetchProperties_returns_every_match_witness :
  exists cards,
    @fetchProperties Sample.locale (Some "POOL") None Sample.anonymous
    = (Ok cards, Sample.anonymous) /\
    In (select_card Sample.cabin) cards.
Proof.
  apply (proj1 (@fetchProperties_returns_every_match Sample.locale (Some "POOL") None
                  Sample.anonymous) eq_refl Sample.cabin).
  - left. reflexivity.
  - reflexivity.
  - right. exists "quiet, with a ", "". reflexivity.
Defined.
